(** * Flotaris mobile front end: timeline layout, list-query hooks and
      dashboard summary

    A shallow embedding of the logical core of the client:
    - [DateUtils]: the calendar helpers the components import from
      [utils/dateUtils];
    - [GanttChart]: [calculateItemPosition] and the rendering of a vehicle
      row, from the [GanttChart] component (it follows
      [DateNavigationModal] in
      [features/schedules/components/DateNavigationModal.tsx]);
    - [VehicleSchedulesData]: the hook [useVehicleSchedulesData] (it follows
      the page in [features/schedules/pages/VehicleSchedulesPage.tsx]), with
      its debounce timer and the requests in flight made explicit;
    - [VehicleSchedulesPage]: the Previous and Next buttons of that page;
    - [MaintenanceOrdersData], [DriversData]: the hooks
      [useMaintenanceOrdersData] and [useDriversData];
    - [Tables]: [handlePageChange] of [VehicleTable] and [DriverTable];
    - [Dashboard]: the summary fallback of [DashboardScreen] (it follows
      the login screen in [screens/LoginScreen.tsx]).

    JavaScript numbers that hold counts, pages, pixels and milliseconds are
    integers here ([Z]); arrays are lists; [undefined]/[null] is [None]. *)

From Stdlib Require Import ZArith Lia Bool List Ascii String.
From stdpp Require Import base list strings gmap sets.
Import ListNotations.

Local Open Scope string_scope.
Local Open Scope list_scope.
Local Open Scope Z_scope.

(** ** Exceptions

    Code that can throw returns a [result]; [Raise] propagates through
    [bind] exactly as an uncaught exception unwinds a call chain. *)

(** Modelled from the spec: the error a bad date string fails with
    (sections 4.1 and 7); [utils/dateUtils], which would throw it, is not
    among the sources. *)
Inductive Exn : Type :=
| ParseError.

Inductive result (A : Type) : Type :=
| Ok (a : A)
| Raise (e : Exn).

Arguments Ok {A} a.
Arguments Raise {A} e.

Definition bind {A B : Type} (r : result A) (k : A -> result B) : result B :=
  match r with
  | Ok a => k a
  | Raise e => Raise e
  end.

Notation "'try!' x <- r ; k" := (bind r (fun x => k))
  (at level 10, x name, r at level 100, k at level 200).

(** ** utils/dateUtils

    The module is imported by the components but is not among the
    sources; all of it is modelled from section 4.1 of the
    specification. *)

Module DateUtils.

(** Modelled from the spec: the calendar dates of section 4.1
    ([utils/dateUtils] and its dates are not among the sources).  A [Date]
    is its time value: milliseconds on the local civil time line (the time
    value of a valid JavaScript [Date], read in local time, with days of
    uniform length, so that daylight-saving shifts play no part). *)
Definition Date : Type := Z.

(** Modelled from the spec: the length of a calendar day, for the day
    arithmetic of section 4.1 ([utils/dateUtils] is not among the
    sources). *)
Definition MS_PER_DAY : Z := 86400000.

(** Modelled from the spec: the calendar day a date falls on, as days
    since 1970-01-01; section 4.1 has the helpers work on calendar dates,
    not instants ([utils/dateUtils] is not among the sources). *)
Definition calendarDay (d : Date) : Z := d / MS_PER_DAY.

(** Modelled from the spec: [addDays(date, n)] of section 4.1, imported
    by the source as [addDaysToDate]; [utils/dateUtils] is not among the
    sources.  It returns the date [n] days later ([n] may be negative)
    and keeps the time of day. *)
Definition addDaysToDate (d : Date) (n : Z) : Date := d + n * MS_PER_DAY.

(** Modelled from the spec: [daysBetween(a, b)] of section 4.1, imported
    by the source as [getDaysBetweenDates]; [utils/dateUtils] is not
    among the sources.  Inclusive day count between two calendar dates
    (same day gives 1), independent of the time of day, and signed
    ([daysBetween(addDays(d, n), d) = -n + 1]). *)
Definition getDaysBetweenDates (a b : Date) : Z :=
  calendarDay b - calendarDay a + 1.

(** *** Date-only strings

    The specification writes dates as [YYYY-MM-DD]. *)

(** Modelled from the spec: a decimal digit of a date-only string
    (parser of section 4.1; [utils/dateUtils] is not among the sources). *)
Definition digit (c : ascii) : option Z :=
  let n := Z.of_N (N_of_ascii c) in
  if (48 <=? n) && (n <=? 57) then Some (n - 48) else None.

(** Modelled from the spec: a run of decimal digits of a date-only string
    (parser of section 4.1; [utils/dateUtils] is not among the sources). *)
Fixpoint digits (acc : Z) (cs : list ascii) : option Z :=
  match cs with
  | [] => Some acc
  | c :: cs' =>
      match digit c with
      | Some v => digits (acc * 10 + v) cs'
      | None => None
      end
  end.

(** Modelled from the spec: Gregorian leap years, to tell calendar dates
    from invalid strings (section 4.1; [utils/dateUtils] is not among the
    sources). *)
Definition isLeapYear (y : Z) : bool :=
  ((y mod 4 =? 0) && negb (y mod 100 =? 0)) || (y mod 400 =? 0).

(** Modelled from the spec: the length of a month, to tell calendar dates
    from invalid strings (section 4.1; [utils/dateUtils] is not among the
    sources). *)
Definition daysInMonth (y m : Z) : Z :=
  if m =? 2 then (if isLeapYear y then 29 else 28)
  else if (m =? 4) || (m =? 6) || (m =? 9) || (m =? 11) then 30
  else 31.

(** Modelled from the spec: the calendar day of the civil date
    [y]-[m]-[d], as days from 1970-01-01 in the proleptic Gregorian
    calendar (section 4.1; [utils/dateUtils] is not among the sources). *)
Definition daysFromCivil (y m d : Z) : Z :=
  let y' := if m <=? 2 then y - 1 else y in
  let era := y' / 400 in
  let yoe := y' - era * 400 in
  let mp := if m >? 2 then m - 3 else m + 9 in
  let doy := (153 * mp + 2) / 5 + d - 1 in
  let doe := yoe * 365 + yoe / 4 - yoe / 100 + doy in
  era * 146097 + doe - 719468.

(** Modelled from the spec: the common part of [parseRangeStart] and
    [parseRangeEnd] of section 4.1 ([utils/dateUtils] is not among the
    sources): the calendar day named by a date-only string, or
    [ParseError] when the string is empty or is not a calendar date. *)
Definition parseCalendarDay (s : string) : result Z :=
  match list_ascii_of_string s with
  | [y1; y2; y3; y4; "-"%char; m1; m2; "-"%char; d1; d2] =>
      match digits 0 [y1; y2; y3; y4], digits 0 [m1; m2], digits 0 [d1; d2] with
      | Some y, Some m, Some d =>
          if (1 <=? m) && (m <=? 12) && (1 <=? d) && (d <=? daysInMonth y m)
          then Ok (daysFromCivil y m d)
          else Raise ParseError
      | _, _, _ => Raise ParseError
      end
  | _ => Raise ParseError
  end.

(** Modelled from the spec: [parseRangeStart(s)] of section 4.1,
    imported by the source as [parseDate]; [utils/dateUtils] is not among
    the sources.  Parses a date-only string into the start-of-day
    boundary of that day; empty or invalid strings fail with
    [ParseError]. *)
Definition parseDate (s : string) : result Date :=
  try! day <- parseCalendarDay s; Ok (day * MS_PER_DAY).

(** Modelled from the spec: [parseRangeEnd(s)] of section 4.1, imported
    by the source as [parseDateEnd]; [utils/dateUtils] is not among the
    sources.  Parses a date-only string into the end-of-day boundary
    (23:59:59.999) of that day, so that an item ending on a day covers
    it entirely; empty or invalid strings fail with [ParseError]. *)
Definition parseDateEnd (s : string) : result Date :=
  try! day <- parseCalendarDay s; Ok (day * MS_PER_DAY + (MS_PER_DAY - 1)).

End DateUtils.

(** ** The GanttChart component *)

Module GanttChart.
Import DateUtils.

Inductive ItemType : Type := schedule | maintenance.

(** The fields of [GanttItem] the component reads ([details.urgent] is
    flattened to [urgent]). *)
Record GanttItem : Type := {
  id : string;
  vehicleId : string;
  type : ItemType;
  startDate : string;
  endDate : string;
  title : string;
  color : string;
  urgent : bool
}.

Record Position : Type := { left : Z; width : Z }.

Definition DAY_WIDTH_PX : Z := 120.
Definition ITEM_HEIGHT : Z := 24.
Definition ITEM_MARGIN : Z := 4.

(** [calculateItemPosition], a closure over the chart's [startDate] and
    [daysToShow] props.  [Ok None] is the source's [return null]. *)
Definition calculateItemPosition (chartStart : Date) (daysToShow : Z)
    (item : GanttItem) : result (option Position) :=
  try! itemStartDate <- parseDate (startDate item);
  try! itemEndDate <- parseDateEnd (endDate item);
  let chartStartDate := chartStart in
  let chartEndDate := addDaysToDate chartStart (daysToShow - 1) in
  if (itemEndDate <? chartStartDate) || (itemStartDate >? chartEndDate)
  then Ok None
  else
    let visibleStartDate :=
      if itemStartDate <? chartStartDate then chartStartDate else itemStartDate in
    let visibleEndDate :=
      if itemEndDate >? chartEndDate then chartEndDate else itemEndDate in
    let daysFromStart := getDaysBetweenDates chartStartDate visibleStartDate - 1 in
    let visibleDays := getDaysBetweenDates visibleStartDate visibleEndDate in
    let left := Z.max 0 (daysFromStart * DAY_WIDTH_PX) in
    let width := Z.max 20 (visibleDays * DAY_WIDTH_PX - 2) in
    Ok (Some {| left := left; width := width |}).

(** A rendered bar of a vehicle row. *)
Record Bar : Type := {
  key : string;
  barLeft : Z;
  barWidth : Z;
  top : Z
}.

(** The body of [vehicleItems.map((item, itemIndex) => ...)]. *)
Definition renderItem (chartStart : Date) (daysToShow : Z)
    (itemIndex : Z) (item : GanttItem) : result (option Bar) :=
  try! position <- calculateItemPosition chartStart daysToShow item;
  match position with
  | None => Ok None
  | Some p =>
      Ok (Some {| key := id item;
                  barLeft := left p;
                  barWidth := width p;
                  top := ITEM_MARGIN + (itemIndex mod 2) * (ITEM_HEIGHT + ITEM_MARGIN) |})
  end.

Fixpoint renderItemsFrom (chartStart : Date) (daysToShow : Z)
    (itemIndex : Z) (items : list GanttItem) : result (list (option Bar)) :=
  match items with
  | [] => Ok []
  | item :: rest =>
      try! b <- renderItem chartStart daysToShow itemIndex item;
      try! bs <- renderItemsFrom chartStart daysToShow (itemIndex + 1) rest;
      Ok (b :: bs)
  end.

(** The bars of one vehicle row. *)
Definition renderRow (chartStart : Date) (daysToShow : Z)
    (vehicleItems : list GanttItem) : result (list (option Bar)) :=
  renderItemsFrom chartStart daysToShow 0 vehicleItems.

Definition ROW_HEIGHT : Z := 60.

(** The names every plain object inherits from [Object.prototype]: read
    on [{}], each gives a function (or, for [__proto__], the prototype
    itself), which is truthy and has no [push] and no [map]. *)
Definition objectPrototypeMembers : list string :=
  ["constructor"; "__defineGetter__"; "__defineSetter__"; "hasOwnProperty";
   "__lookupGetter__"; "__lookupSetter__"; "isPrototypeOf";
   "propertyIsEnumerable"; "toString"; "valueOf"; "__proto__"; "toLocaleString"].

Definition inherited (key : string) : bool :=
  bool_decide (key ∈ objectPrototypeMembers).

(** One step of [items.reduce((acc, item) => ...)]: [acc] holds the own
    keys of the object.  For an inherited name [!acc[key]] is false, no
    array is stored and [acc[key].push] throws a [TypeError] ([None]). *)
Definition addItem (acc : gmap string (list GanttItem)) (item : GanttItem)
    : option (gmap string (list GanttItem)) :=
  if inherited (vehicleId item) then None
  else
    let group := default [] (acc !! vehicleId item) in
    Some (<[vehicleId item := group ++ [item]]> acc).

Fixpoint reduceItems (acc : gmap string (list GanttItem)) (items : list GanttItem)
    : option (gmap string (list GanttItem)) :=
  match items with
  | [] => Some acc
  | item :: rest =>
      match addItem acc item with
      | Some acc' => reduceItems acc' rest
      | None => None
      end
  end.

(** [itemsByVehicle]: the items of each vehicle, in the order of
    [items]; [None] when the reduction throws. *)
Definition itemsByVehicle (items : list GanttItem)
    : option (gmap string (list GanttItem)) :=
  reduceItems ∅ items.

(** [itemsByVehicle[vehicle.id] || []], as the row maps over it: for an
    inherited name the value read is not an array and [.map] throws a
    [TypeError] ([None]). *)
Definition vehicleItems (groups : gmap string (list GanttItem)) (vehicle : string)
    : option (list GanttItem) :=
  if inherited vehicle then None
  else Some (default [] (groups !! vehicle)).

End GanttChart.

(** ** The list hooks

    A hook's [useState] cells are the fields of its [State]; each state
    setter is a function on [State], and an action is the composition of the
    setters it calls (the updates of one handler are applied as one
    batch). *)

Inductive SortDirection : Type := asc | desc.

#[global] Instance SortDirection_eq_dec : EqDecision SortDirection.
Proof. solve_decision. Defined.

(** A pending [setTimeout]: the time left until it fires, and the search
    term captured by its callback. *)
Record Timer : Type := { remaining : Z; captured : string }.

Definition DEBOUNCE_MS : Z := 300.

(** What a rejected promise carries: an [Error] with its message, or any
    other value. *)
Inductive Rejection : Type :=
| ErrorInstance (message : string)
| OtherValue.

(** [err instanceof Error ? err.message : fallback] *)
Definition rejectionMessage (fallback : string) (err : Rejection) : string :=
  match err with
  | ErrorInstance message => message
  | OtherValue => fallback
  end.

(** [x || undefined] on a string. *)
Definition orUndefined (x : string) : option string :=
  if bool_decide (x = "") then None else Some x.

(** [prev.includes(status) ? prev.filter(s => s !== status)
                           : [...prev, status]] *)
Definition toggled (status : string) (prev : list string) : list string :=
  if bool_decide (status ∈ prev)
  then filter (fun s => s ≠ status) prev
  else prev ++ [status].

(** ** useVehicleSchedulesData *)

Module VehicleSchedulesData.

Inductive SortColumn : Type :=
| vehicleName | driverName | startDate | endDate | duration | status.

#[global] Instance SortColumn_eq_dec : EqDecision SortColumn.
Proof. solve_decision. Defined.

Record QueryParams : Type := {
  qSearch : option string;
  qStatus : option (list string);
  qSortBy : option SortColumn;
  qSortOrder : SortDirection;
  qPage : Z;
  qLimit : Z
}.

Section Hook.
(** The entity types of [types.ts]; the hook never looks inside. *)
Context {VehicleSchedule VehicleScheduleSummary : Type}.

Record Response : Type := {
  rVehicleSchedules : list VehicleSchedule;
  rTotalCount : Z;
  rTotalPages : Z;
  rHasNextPage : bool;
  rHasPreviousPage : bool
}.

(** The [useState] cells, the timer held by [searchTimeoutRef], and
    [statusFiltersId], the identity of the array object held in
    [statusFilters] (React compares dependencies with [Object.is]). *)
Record State : Type := MkState {
  searchTerm : string;
  statusFilters : list string;
  sortBy : option SortColumn;
  sortOrder : SortDirection;
  currentPage : Z;
  itemsPerPage : Z;
  vehicleSchedules : list VehicleSchedule;
  totalCount : Z;
  totalPages : Z;
  hasNextPage : bool;
  hasPreviousPage : bool;
  loading : bool;
  error : option string;
  vehicleScheduleSummary : option VehicleScheduleSummary;
  searchTimeout : option Timer;
  debouncedSearchTerm : string;
  statusFiltersId : nat
}.

(** The state setters: each replaces one cell. *)
Definition setSearchTermState (v : string) (s : State) : State :=
  let '(MkState _ sf sb so cp ip it tc tp hn hp ld er sm tm ds fid) := s in
  MkState v sf sb so cp ip it tc tp hn hp ld er sm tm ds fid.

Definition setSortByState (v : option SortColumn) (s : State) : State :=
  let '(MkState st sf _ so cp ip it tc tp hn hp ld er sm tm ds fid) := s in
  MkState st sf v so cp ip it tc tp hn hp ld er sm tm ds fid.

Definition setSortOrderState (v : SortDirection) (s : State) : State :=
  let '(MkState st sf sb _ cp ip it tc tp hn hp ld er sm tm ds fid) := s in
  MkState st sf sb v cp ip it tc tp hn hp ld er sm tm ds fid.

Definition setCurrentPageState (v : Z) (s : State) : State :=
  let '(MkState st sf sb so _ ip it tc tp hn hp ld er sm tm ds fid) := s in
  MkState st sf sb so v ip it tc tp hn hp ld er sm tm ds fid.

Definition setItemsPerPageState (v : Z) (s : State) : State :=
  let '(MkState st sf sb so cp _ it tc tp hn hp ld er sm tm ds fid) := s in
  MkState st sf sb so cp v it tc tp hn hp ld er sm tm ds fid.

Definition setVehicleSchedules (v : list VehicleSchedule) (s : State) : State :=
  let '(MkState st sf sb so cp ip _ tc tp hn hp ld er sm tm ds fid) := s in
  MkState st sf sb so cp ip v tc tp hn hp ld er sm tm ds fid.

Definition setTotalCount (v : Z) (s : State) : State :=
  let '(MkState st sf sb so cp ip it _ tp hn hp ld er sm tm ds fid) := s in
  MkState st sf sb so cp ip it v tp hn hp ld er sm tm ds fid.

Definition setTotalPages (v : Z) (s : State) : State :=
  let '(MkState st sf sb so cp ip it tc _ hn hp ld er sm tm ds fid) := s in
  MkState st sf sb so cp ip it tc v hn hp ld er sm tm ds fid.

Definition setHasNextPage (v : bool) (s : State) : State :=
  let '(MkState st sf sb so cp ip it tc tp _ hp ld er sm tm ds fid) := s in
  MkState st sf sb so cp ip it tc tp v hp ld er sm tm ds fid.

Definition setHasPreviousPage (v : bool) (s : State) : State :=
  let '(MkState st sf sb so cp ip it tc tp hn _ ld er sm tm ds fid) := s in
  MkState st sf sb so cp ip it tc tp hn v ld er sm tm ds fid.

Definition setLoading (v : bool) (s : State) : State :=
  let '(MkState st sf sb so cp ip it tc tp hn hp _ er sm tm ds fid) := s in
  MkState st sf sb so cp ip it tc tp hn hp v er sm tm ds fid.

Definition setError (v : option string) (s : State) : State :=
  let '(MkState st sf sb so cp ip it tc tp hn hp ld _ sm tm ds fid) := s in
  MkState st sf sb so cp ip it tc tp hn hp ld v sm tm ds fid.

Definition setVehicleScheduleSummary (v : option VehicleScheduleSummary) (s : State) : State :=
  let '(MkState st sf sb so cp ip it tc tp hn hp ld er _ tm ds fid) := s in
  MkState st sf sb so cp ip it tc tp hn hp ld er v tm ds fid.

Definition setSearchTimeout (v : option Timer) (s : State) : State :=
  let '(MkState st sf sb so cp ip it tc tp hn hp ld er sm _ ds fid) := s in
  MkState st sf sb so cp ip it tc tp hn hp ld er sm v ds fid.

Definition setDebouncedSearchTerm (v : string) (s : State) : State :=
  let '(MkState st sf sb so cp ip it tc tp hn hp ld er sm tm _ fid) := s in
  MkState st sf sb so cp ip it tc tp hn hp ld er sm tm v fid.

(** Every call stores a fresh array. *)
Definition setStatusFilters (v : list string) (s : State) : State :=
  let '(MkState st _ sb so cp ip it tc tp hn hp ld er sm tm ds fid) := s in
  MkState st v sb so cp ip it tc tp hn hp ld er sm tm ds (S fid).

(** [getInitialState()] and the initial values of the data cells. *)
Definition initialState : State :=
  {| searchTerm := "";
     statusFilters := ["active"; "scheduled"];
     sortBy := Some startDate;
     sortOrder := desc;
     currentPage := 1;
     itemsPerPage := 6;
     vehicleSchedules := [];
     totalCount := 0;
     totalPages := 0;
     hasNextPage := false;
     hasPreviousPage := false;
     loading := false;
     error := None;
     vehicleScheduleSummary := None;
     searchTimeout := None;
     debouncedSearchTerm := "";
     statusFiltersId := 0%nat |}.

(** *** [fetchData] *)

(** The [queryParams] object built in the [try] block. *)
Definition queryParams (s : State) : QueryParams :=
  {| qSearch := orUndefined (debouncedSearchTerm s);
     qStatus := if (0 <? Z.of_nat (length (statusFilters s)))
                then Some (statusFilters s) else None;
     qSortBy := sortBy s;
     qSortOrder := sortOrder s;
     qPage := currentPage s;
     qLimit := itemsPerPage s |}.

(** Up to the [await]. *)
Definition fetchDataBegin (s : State) : State :=
  setError None (setLoading true s).

(** After the [await], when [Promise.all] fulfils. *)
Definition fetchDataResolved (response : Response)
    (summaryResponse : VehicleScheduleSummary) (s : State) : State :=
  setLoading false
    (setVehicleScheduleSummary (Some summaryResponse)
    (setHasPreviousPage (rHasPreviousPage response)
    (setHasNextPage (rHasNextPage response)
    (setTotalPages (rTotalPages response)
    (setTotalCount (rTotalCount response)
    (setVehicleSchedules (rVehicleSchedules response) s)))))).

(** The [catch] branch, then [finally]. *)
Definition fetchDataRejected (err : Rejection) (s : State) : State :=
  setLoading false
    (setVehicleScheduleSummary None
    (setHasPreviousPage false
    (setHasNextPage false
    (setTotalPages 0
    (setTotalCount 0
    (setVehicleSchedules []
    (setError (Some (rejectionMessage "Failed to fetch vehicle schedules" err)) s))))))).

(** *** Actions *)

Definition setSearchTerm (term : string) (s : State) : State :=
  setCurrentPageState 1 (setSearchTermState term s).

Definition toggleStatusFilter (status : string) (s : State) : State :=
  setCurrentPageState 1 (setStatusFilters (toggled status (statusFilters s)) s).

Definition clearStatusFilters (s : State) : State :=
  setCurrentPageState 1 (setStatusFilters ["active"; "scheduled"] s).

Definition setSorting (column : SortColumn) (s : State) : State :=
  setCurrentPageState 1
    (if bool_decide (sortBy s = Some column)
     then setSortOrderState (match sortOrder s with asc => desc | desc => asc end) s
     else setSortOrderState asc (setSortByState (Some column) s)).

Definition setCurrentPage (page : Z) (s : State) : State :=
  setCurrentPageState page s.

Definition setItemsPerPage (limit : Z) (s : State) : State :=
  setCurrentPageState 1 (setItemsPerPageState limit s).

Definition clearAllFilters (s : State) : State :=
  setCurrentPageState 1
    (setSortOrderState desc
    (setSortByState (Some startDate)
    (setStatusFilters ["active"; "scheduled"]
    (setSearchTermState "" s)))).

(** *** The hook in time

    The hook together with the requests it has in flight.  [issued]
    logs every request ever sent, oldest first. *)
Record World : Type := {
  hook : State;
  inflight : list QueryParams;
  issued : list QueryParams
}.

(** The parameters [q] with another page, and with another search
    term. *)
Definition withPage (page : Z) (q : QueryParams) : QueryParams :=
  {| qSearch := qSearch q; qStatus := qStatus q; qSortBy := qSortBy q;
     qSortOrder := qSortOrder q; qPage := page; qLimit := qLimit q |}.

Definition withSearch (search : option string) (q : QueryParams) : QueryParams :=
  {| qSearch := search; qStatus := qStatus q; qSortBy := qSortBy q;
     qSortOrder := qSortOrder q; qPage := qPage q; qLimit := qLimit q |}.

(** The request a page reset causes from state [s]: none when the page is
    1 already, else the parameters of [s] for page 1. *)
Definition pageResetRequest (s : State) : list QueryParams :=
  if bool_decide (currentPage s = 1) then [] else [withPage 1 (queryParams s)].

(** The request the commit of the search term [final] causes from state
    [s], once the page is 1: none when [final] is committed already. *)
Definition commitRequest (final : string) (s : State) : list QueryParams :=
  if bool_decide (debouncedSearchTerm s = final) then []
  else [withSearch (orUndefined final) (withPage 1 (queryParams s))].

(** One call of [fetchData()]. *)
Definition callFetchData (w : World) : World :=
  {| hook := fetchDataBegin (hook w);
     inflight := inflight w ++ [queryParams (hook w)];
     issued := issued w ++ [queryParams (hook w)] |}.

(** The dependency list of [fetchData]: has any entry changed between
    two renders? *)
Definition fetchDepsChanged (old new : State) : bool :=
  negb (bool_decide (debouncedSearchTerm old = debouncedSearchTerm new)
        && bool_decide (statusFiltersId old = statusFiltersId new)
        && bool_decide (sortBy old = sortBy new)
        && bool_decide (sortOrder old = sortOrder new)
        && bool_decide (currentPage old = currentPage new)
        && bool_decide (itemsPerPage old = itemsPerPage new)).

(** The debounce effect, keyed on [searchTerm]: clear the pending
    timer and start a new one of 300 ms. *)
Definition debounceEffect (old new : State) : State :=
  if bool_decide (searchTerm old = searchTerm new) then new
  else setSearchTimeout
         (Some {| remaining := DEBOUNCE_MS; captured := searchTerm new |}) new.

(** The effects that run after the state went from [old] to [new]. *)
Definition afterRender (old new : State) (w : World) : World :=
  let w' := {| hook := debounceEffect old new;
               inflight := inflight w;
               issued := issued w |} in
  if fetchDepsChanged old new then callFetchData w' else w'.

Inductive Action : Type :=
| SetSearchTerm (term : string)
| ToggleStatusFilter (status : string)
| ClearStatusFilters
| SetSorting (column : SortColumn)
| SetCurrentPage (page : Z)
| SetItemsPerPage (limit : Z)
| ClearAllFilters.

Definition act (a : Action) : State -> State :=
  match a with
  | SetSearchTerm term => setSearchTerm term
  | ToggleStatusFilter st => toggleStatusFilter st
  | ClearStatusFilters => clearStatusFilters
  | SetSorting column => setSorting column
  | SetCurrentPage page => setCurrentPage page
  | SetItemsPerPage limit => setItemsPerPage limit
  | ClearAllFilters => clearAllFilters
  end.

Inductive Outcome : Type :=
| Fulfilled (response : Response) (summaryResponse : VehicleScheduleSummary)
| Rejected (err : Rejection).

Inductive Event : Type :=
| Call (a : Action)               (* the page calls an action *)
| RefreshData                     (* the page calls [refreshData] *)
| Elapse (ms : Z)                 (* [ms] milliseconds go by *)
| Settle (i : nat) (o : Outcome). (* the [i]-th request in flight settles *)

Definition step (w : World) (e : Event) : World :=
  match e with
  | Call a => afterRender (hook w) (act a (hook w)) w
  | RefreshData => callFetchData w
  | Elapse ms =>
      match searchTimeout (hook w) with
      | None => w
      | Some t =>
          if remaining t <=? ms
          then afterRender (hook w)
                 (setDebouncedSearchTerm (captured t)
                    (setSearchTimeout None (hook w))) w
          else {| hook := setSearchTimeout
                            (Some {| remaining := remaining t - ms;
                                     captured := captured t |}) (hook w);
                  inflight := inflight w;
                  issued := issued w |}
      end
  | Settle i o =>
      match inflight w !! i with
      | None => w
      | Some _ =>
          {| hook := match o with
                     | Fulfilled response summaryResponse =>
                         fetchDataResolved response summaryResponse (hook w)
                     | Rejected err => fetchDataRejected err (hook w)
                     end;
             inflight := delete i (inflight w);
             issued := issued w |}
      end
  end.

Definition run (w : World) (es : list Event) : World := foldl step w es.

(** A burst of keystrokes: each entry is the text passed to
    [setSearchTerm] and the pause that follows it. *)
Fixpoint typing (burst : list (string * Z)) : list Event :=
  match burst with
  | [] => []
  | (term, pause) :: rest =>
      Call (SetSearchTerm term) :: Elapse pause :: typing rest
  end.

(** Every text of the list differs from the one before it, starting
    from [prev]. *)
Fixpoint eachChanges (prev : string) (terms : list string) : Prop :=
  match terms with
  | [] => True
  | term :: rest => term ≠ prev /\ eachChanges term rest
  end.

(** The text in the search box after the texts [terms] were typed
    over [prev]. *)
Definition lastText (prev : string) (terms : list string) : string :=
  foldl (fun _ term => term) prev terms.

(** The requests sent on the way from [w] to [w'] all carry a search
    parameter among [terms]. *)
Definition sentOnlyFor (terms : list (option string)) (w w' : World) : Prop :=
  exists new,
    issued w' = issued w ++ new /\
    Forall (fun q => qSearch q ∈ terms) new.

(** The pending timer, if any, holds the text of the search box; with no
    timer pending that text is the committed one. *)
Definition timerAgrees (s : State) : Prop :=
  match searchTimeout s with
  | Some t => captured t = searchTerm s
  | None => debouncedSearchTerm s = searchTerm s
  end.

(** The hook right after mounting: the debounce timer is running and
    the first request is in flight. *)
Definition mount : World :=
  callFetchData
    {| hook := setSearchTimeout
                 (Some {| remaining := DEBOUNCE_MS; captured := "" |}) initialState;
       inflight := [];
       issued := [] |}.

End Hook.

Arguments Response : clear implicits.
Arguments State : clear implicits.
Arguments World : clear implicits.
Arguments Outcome : clear implicits.
Arguments Event : clear implicits.

End VehicleSchedulesData.

(** ** VehicleSchedulesPage: the pagination buttons

    The block is rendered when [totalPages > 1]; each button is disabled
    by its flag or while loading, and calls [setCurrentPage] with the
    neighbouring page. *)

Module VehicleSchedulesPage.
Import VehicleSchedulesData.

Section Page.
Context {VehicleSchedule VehicleScheduleSummary : Type}.
Implicit Types w : World VehicleSchedule VehicleScheduleSummary.

(** [totalPages > 1 && ...] *)
Definition paginationShown w : bool := 1 <? totalPages (hook w).

(** [disabled={!hasPreviousPage || loading}] *)
Definition previousDisabled w : bool :=
  negb (hasPreviousPage (hook w)) || loading (hook w).

(** [disabled={!hasNextPage || loading}] *)
Definition nextDisabled w : bool :=
  negb (hasNextPage (hook w)) || loading (hook w).

(** A press on Previous: [onPress={() => setCurrentPage(currentPage - 1)}];
    nothing happens when the button is not shown or is disabled. *)
Definition pressPrevious w : World VehicleSchedule VehicleScheduleSummary :=
  if paginationShown w && negb (previousDisabled w)
  then step w (Call (SetCurrentPage (currentPage (hook w) - 1)))
  else w.

(** A press on Next: [onPress={() => setCurrentPage(currentPage + 1)}]. *)
Definition pressNext w : World VehicleSchedule VehicleScheduleSummary :=
  if paginationShown w && negb (nextDisabled w)
  then step w (Call (SetCurrentPage (currentPage (hook w) + 1)))
  else w.

End Page.

End VehicleSchedulesPage.

(** ** useMaintenanceOrdersData

    Same shape as the schedules hook; the defaults differ. *)

Module MaintenanceOrdersData.

Inductive SortColumn : Type :=
| orderNumber | vehicleName | startDate | estimatedCompletionDate | cost | status.

#[global] Instance SortColumn_eq_dec : EqDecision SortColumn.
Proof. solve_decision. Defined.

Record QueryParams : Type := {
  qSearch : option string;
  qStatus : option (list string);
  qSortBy : option SortColumn;
  qSortOrder : SortDirection;
  qPage : Z;
  qLimit : Z
}.

Section Hook.
Context {MaintenanceOrder MaintenanceOrderSummary : Type}.

Record Response : Type := {
  rMaintenanceOrders : list MaintenanceOrder;
  rTotalCount : Z;
  rTotalPages : Z;
  rHasNextPage : bool;
  rHasPreviousPage : bool
}.

Record State : Type := MkState {
  searchTerm : string;
  statusFilters : list string;
  sortBy : option SortColumn;
  sortOrder : SortDirection;
  currentPage : Z;
  itemsPerPage : Z;
  maintenanceOrders : list MaintenanceOrder;
  totalCount : Z;
  totalPages : Z;
  hasNextPage : bool;
  hasPreviousPage : bool;
  loading : bool;
  error : option string;
  maintenanceOrderSummary : option MaintenanceOrderSummary;
  searchTimeout : option Timer;
  debouncedSearchTerm : string;
  statusFiltersId : nat
}.

(** The state setters: each replaces one cell. *)
Definition setSearchTermState (v : string) (s : State) : State :=
  let '(MkState _ sf sb so cp ip it tc tp hn hp ld er sm tm ds fid) := s in
  MkState v sf sb so cp ip it tc tp hn hp ld er sm tm ds fid.

Definition setSortByState (v : option SortColumn) (s : State) : State :=
  let '(MkState st sf _ so cp ip it tc tp hn hp ld er sm tm ds fid) := s in
  MkState st sf v so cp ip it tc tp hn hp ld er sm tm ds fid.

Definition setSortOrderState (v : SortDirection) (s : State) : State :=
  let '(MkState st sf sb _ cp ip it tc tp hn hp ld er sm tm ds fid) := s in
  MkState st sf sb v cp ip it tc tp hn hp ld er sm tm ds fid.

Definition setCurrentPageState (v : Z) (s : State) : State :=
  let '(MkState st sf sb so _ ip it tc tp hn hp ld er sm tm ds fid) := s in
  MkState st sf sb so v ip it tc tp hn hp ld er sm tm ds fid.

Definition setItemsPerPageState (v : Z) (s : State) : State :=
  let '(MkState st sf sb so cp _ it tc tp hn hp ld er sm tm ds fid) := s in
  MkState st sf sb so cp v it tc tp hn hp ld er sm tm ds fid.

Definition setMaintenanceOrders (v : list MaintenanceOrder) (s : State) : State :=
  let '(MkState st sf sb so cp ip _ tc tp hn hp ld er sm tm ds fid) := s in
  MkState st sf sb so cp ip v tc tp hn hp ld er sm tm ds fid.

Definition setTotalCount (v : Z) (s : State) : State :=
  let '(MkState st sf sb so cp ip it _ tp hn hp ld er sm tm ds fid) := s in
  MkState st sf sb so cp ip it v tp hn hp ld er sm tm ds fid.

Definition setTotalPages (v : Z) (s : State) : State :=
  let '(MkState st sf sb so cp ip it tc _ hn hp ld er sm tm ds fid) := s in
  MkState st sf sb so cp ip it tc v hn hp ld er sm tm ds fid.

Definition setHasNextPage (v : bool) (s : State) : State :=
  let '(MkState st sf sb so cp ip it tc tp _ hp ld er sm tm ds fid) := s in
  MkState st sf sb so cp ip it tc tp v hp ld er sm tm ds fid.

Definition setHasPreviousPage (v : bool) (s : State) : State :=
  let '(MkState st sf sb so cp ip it tc tp hn _ ld er sm tm ds fid) := s in
  MkState st sf sb so cp ip it tc tp hn v ld er sm tm ds fid.

Definition setLoading (v : bool) (s : State) : State :=
  let '(MkState st sf sb so cp ip it tc tp hn hp _ er sm tm ds fid) := s in
  MkState st sf sb so cp ip it tc tp hn hp v er sm tm ds fid.

Definition setError (v : option string) (s : State) : State :=
  let '(MkState st sf sb so cp ip it tc tp hn hp ld _ sm tm ds fid) := s in
  MkState st sf sb so cp ip it tc tp hn hp ld v sm tm ds fid.

Definition setMaintenanceOrderSummary (v : option MaintenanceOrderSummary) (s : State) : State :=
  let '(MkState st sf sb so cp ip it tc tp hn hp ld er _ tm ds fid) := s in
  MkState st sf sb so cp ip it tc tp hn hp ld er v tm ds fid.

Definition setSearchTimeout (v : option Timer) (s : State) : State :=
  let '(MkState st sf sb so cp ip it tc tp hn hp ld er sm _ ds fid) := s in
  MkState st sf sb so cp ip it tc tp hn hp ld er sm v ds fid.

Definition setDebouncedSearchTerm (v : string) (s : State) : State :=
  let '(MkState st sf sb so cp ip it tc tp hn hp ld er sm tm _ fid) := s in
  MkState st sf sb so cp ip it tc tp hn hp ld er sm tm v fid.

Definition setStatusFilters (v : list string) (s : State) : State :=
  let '(MkState st _ sb so cp ip it tc tp hn hp ld er sm tm ds fid) := s in
  MkState st v sb so cp ip it tc tp hn hp ld er sm tm ds (S fid).

Definition initialState : State :=
  {| searchTerm := "";
     statusFilters := ["active"; "scheduled"; "pending_authorization"];
     sortBy := Some startDate;
     sortOrder := desc;
     currentPage := 1;
     itemsPerPage := 10;
     maintenanceOrders := [];
     totalCount := 0;
     totalPages := 0;
     hasNextPage := false;
     hasPreviousPage := false;
     loading := false;
     error := None;
     maintenanceOrderSummary := None;
     searchTimeout := None;
     debouncedSearchTerm := "";
     statusFiltersId := 0%nat |}.

Definition queryParams (s : State) : QueryParams :=
  {| qSearch := orUndefined (debouncedSearchTerm s);
     qStatus := if (0 <? Z.of_nat (length (statusFilters s)))
                then Some (statusFilters s) else None;
     qSortBy := sortBy s;
     qSortOrder := sortOrder s;
     qPage := currentPage s;
     qLimit := itemsPerPage s |}.

Definition fetchDataBegin (s : State) : State :=
  setError None (setLoading true s).

Definition fetchDataResolved (response : Response)
    (summaryResponse : MaintenanceOrderSummary) (s : State) : State :=
  setLoading false
    (setMaintenanceOrderSummary (Some summaryResponse)
    (setHasPreviousPage (rHasPreviousPage response)
    (setHasNextPage (rHasNextPage response)
    (setTotalPages (rTotalPages response)
    (setTotalCount (rTotalCount response)
    (setMaintenanceOrders (rMaintenanceOrders response) s)))))).

Definition fetchDataRejected (err : Rejection) (s : State) : State :=
  setLoading false
    (setMaintenanceOrderSummary None
    (setHasPreviousPage false
    (setHasNextPage false
    (setTotalPages 0
    (setTotalCount 0
    (setMaintenanceOrders []
    (setError (Some (rejectionMessage "Failed to fetch maintenance orders" err)) s))))))).

Definition setSearchTerm (term : string) (s : State) : State :=
  setCurrentPageState 1 (setSearchTermState term s).

Definition toggleStatusFilter (status : string) (s : State) : State :=
  setCurrentPageState 1 (setStatusFilters (toggled status (statusFilters s)) s).

Definition clearStatusFilters (s : State) : State :=
  setCurrentPageState 1 (setStatusFilters [] s).

Definition setSorting (column : SortColumn) (s : State) : State :=
  setCurrentPageState 1
    (if bool_decide (sortBy s = Some column)
     then setSortOrderState (match sortOrder s with asc => desc | desc => asc end) s
     else setSortOrderState asc (setSortByState (Some column) s)).

Definition setCurrentPage (page : Z) (s : State) : State :=
  setCurrentPageState page s.

Definition setItemsPerPage (limit : Z) (s : State) : State :=
  setCurrentPageState 1 (setItemsPerPageState limit s).

Definition clearAllFilters (s : State) : State :=
  setCurrentPageState 1
    (setSortOrderState desc
    (setSortByState (Some startDate)
    (setStatusFilters []
    (setSearchTermState "" s)))).

(** The hook together with the requests it has in flight. *)
Record World : Type := {
  hook : State;
  inflight : list QueryParams
}.

(** One call of [fetchData()]. *)
Definition callFetchData (w : World) : World :=
  {| hook := fetchDataBegin (hook w);
     inflight := inflight w ++ [queryParams (hook w)] |}.

Inductive Outcome : Type :=
| Fulfilled (response : Response) (summaryResponse : MaintenanceOrderSummary)
| Rejected (err : Rejection).

(** The [i]-th request in flight settles: the rest of [fetchData] runs. *)
Definition settle (i : nat) (o : Outcome) (w : World) : World :=
  match inflight w !! i with
  | None => w
  | Some _ =>
      {| hook := match o with
                 | Fulfilled response summaryResponse =>
                     fetchDataResolved response summaryResponse (hook w)
                 | Rejected err => fetchDataRejected err (hook w)
                 end;
         inflight := delete i (inflight w) |}
  end.

(** The hook right after mounting: the debounce timer is running and
    the first request is in flight. *)
Definition mount : World :=
  callFetchData
    {| hook := setSearchTimeout
                 (Some {| remaining := DEBOUNCE_MS; captured := "" |}) initialState;
       inflight := [] |}.

(** A press on a page number: [setCurrentPage(page)], then the fetch
    effect, which runs [fetchData] when [currentPage] has changed. *)
Definition goToPage (page : Z) (w : World) : World :=
  let w' := {| hook := setCurrentPage page (hook w); inflight := inflight w |} in
  if bool_decide (currentPage (hook w) = page) then w' else callFetchData w'.

End Hook.

Arguments Response : clear implicits.
Arguments State : clear implicits.
Arguments World : clear implicits.
Arguments Outcome : clear implicits.

End MaintenanceOrdersData.

(** ** useDriversData

    This hook has two debounced search terms and no status filter. *)

Module DriversData.

Inductive SortColumn : Type := name | email | idNumber | createdAt.

#[global] Instance SortColumn_eq_dec : EqDecision SortColumn.
Proof. solve_decision. Defined.

Record QueryParams : Type := {
  qSearch : option string;
  qEmailSearch : option string;
  qSortBy : option SortColumn;
  qSortOrder : SortDirection;
  qPage : Z;
  qLimit : Z
}.

Section Hook.
Context {Driver : Type}.

Record Response : Type := {
  rDrivers : list Driver;
  rTotalCount : Z;
  rTotalPages : Z;
  rHasNextPage : bool;
  rHasPreviousPage : bool
}.

Record State : Type := MkState {
  searchTerm : string;
  emailSearchTerm : string;
  sortBy : option SortColumn;
  sortOrder : SortDirection;
  currentPage : Z;
  itemsPerPage : Z;
  drivers : list Driver;
  totalCount : Z;
  totalPages : Z;
  hasNextPage : bool;
  hasPreviousPage : bool;
  loading : bool;
  error : option string;
  searchTimeout : option Timer;
  emailSearchTimeout : option Timer;
  debouncedSearchTerm : string;
  debouncedEmailSearchTerm : string
}.

(** The state setters: each replaces one cell. *)
Definition setSearchTermState (v : string) (s : State) : State :=
  let '(MkState _ es sb so cp ip it tc tp hn hp ld er tm etm ds eds) := s in
  MkState v es sb so cp ip it tc tp hn hp ld er tm etm ds eds.

Definition setEmailSearchTermState (v : string) (s : State) : State :=
  let '(MkState st _ sb so cp ip it tc tp hn hp ld er tm etm ds eds) := s in
  MkState st v sb so cp ip it tc tp hn hp ld er tm etm ds eds.

Definition setSortByState (v : option SortColumn) (s : State) : State :=
  let '(MkState st es _ so cp ip it tc tp hn hp ld er tm etm ds eds) := s in
  MkState st es v so cp ip it tc tp hn hp ld er tm etm ds eds.

Definition setSortOrderState (v : SortDirection) (s : State) : State :=
  let '(MkState st es sb _ cp ip it tc tp hn hp ld er tm etm ds eds) := s in
  MkState st es sb v cp ip it tc tp hn hp ld er tm etm ds eds.

Definition setCurrentPageState (v : Z) (s : State) : State :=
  let '(MkState st es sb so _ ip it tc tp hn hp ld er tm etm ds eds) := s in
  MkState st es sb so v ip it tc tp hn hp ld er tm etm ds eds.

Definition setItemsPerPageState (v : Z) (s : State) : State :=
  let '(MkState st es sb so cp _ it tc tp hn hp ld er tm etm ds eds) := s in
  MkState st es sb so cp v it tc tp hn hp ld er tm etm ds eds.

Definition setDrivers (v : list Driver) (s : State) : State :=
  let '(MkState st es sb so cp ip _ tc tp hn hp ld er tm etm ds eds) := s in
  MkState st es sb so cp ip v tc tp hn hp ld er tm etm ds eds.

Definition setTotalCount (v : Z) (s : State) : State :=
  let '(MkState st es sb so cp ip it _ tp hn hp ld er tm etm ds eds) := s in
  MkState st es sb so cp ip it v tp hn hp ld er tm etm ds eds.

Definition setTotalPages (v : Z) (s : State) : State :=
  let '(MkState st es sb so cp ip it tc _ hn hp ld er tm etm ds eds) := s in
  MkState st es sb so cp ip it tc v hn hp ld er tm etm ds eds.

Definition setHasNextPage (v : bool) (s : State) : State :=
  let '(MkState st es sb so cp ip it tc tp _ hp ld er tm etm ds eds) := s in
  MkState st es sb so cp ip it tc tp v hp ld er tm etm ds eds.

Definition setHasPreviousPage (v : bool) (s : State) : State :=
  let '(MkState st es sb so cp ip it tc tp hn _ ld er tm etm ds eds) := s in
  MkState st es sb so cp ip it tc tp hn v ld er tm etm ds eds.

Definition setLoading (v : bool) (s : State) : State :=
  let '(MkState st es sb so cp ip it tc tp hn hp _ er tm etm ds eds) := s in
  MkState st es sb so cp ip it tc tp hn hp v er tm etm ds eds.

Definition setError (v : option string) (s : State) : State :=
  let '(MkState st es sb so cp ip it tc tp hn hp ld _ tm etm ds eds) := s in
  MkState st es sb so cp ip it tc tp hn hp ld v tm etm ds eds.

Definition setSearchTimeout (v : option Timer) (s : State) : State :=
  let '(MkState st es sb so cp ip it tc tp hn hp ld er _ etm ds eds) := s in
  MkState st es sb so cp ip it tc tp hn hp ld er v etm ds eds.

Definition setEmailSearchTimeout (v : option Timer) (s : State) : State :=
  let '(MkState st es sb so cp ip it tc tp hn hp ld er tm _ ds eds) := s in
  MkState st es sb so cp ip it tc tp hn hp ld er tm v ds eds.

Definition setDebouncedSearchTerm (v : string) (s : State) : State :=
  let '(MkState st es sb so cp ip it tc tp hn hp ld er tm etm _ eds) := s in
  MkState st es sb so cp ip it tc tp hn hp ld er tm etm v eds.

Definition setDebouncedEmailSearchTerm (v : string) (s : State) : State :=
  let '(MkState st es sb so cp ip it tc tp hn hp ld er tm etm ds _) := s in
  MkState st es sb so cp ip it tc tp hn hp ld er tm etm ds v.

Definition initialState : State :=
  {| searchTerm := "";
     emailSearchTerm := "";
     sortBy := None;
     sortOrder := asc;
     currentPage := 1;
     itemsPerPage := 10;
     drivers := [];
     totalCount := 0;
     totalPages := 0;
     hasNextPage := false;
     hasPreviousPage := false;
     loading := false;
     error := None;
     searchTimeout := None;
     emailSearchTimeout := None;
     debouncedSearchTerm := "";
     debouncedEmailSearchTerm := "" |}.

Definition queryParams (s : State) : QueryParams :=
  {| qSearch := orUndefined (debouncedSearchTerm s);
     qEmailSearch := orUndefined (debouncedEmailSearchTerm s);
     qSortBy := sortBy s;
     qSortOrder := sortOrder s;
     qPage := currentPage s;
     qLimit := itemsPerPage s |}.

Definition fetchDataBegin (s : State) : State :=
  setError None (setLoading true s).

Definition fetchDataResolved (response : Response) (s : State) : State :=
  setLoading false
    (setHasPreviousPage (rHasPreviousPage response)
    (setHasNextPage (rHasNextPage response)
    (setTotalPages (rTotalPages response)
    (setTotalCount (rTotalCount response)
    (setDrivers (rDrivers response) s))))).

Definition fetchDataRejected (err : Rejection) (s : State) : State :=
  setLoading false
    (setHasPreviousPage false
    (setHasNextPage false
    (setTotalPages 0
    (setTotalCount 0
    (setDrivers []
    (setError (Some (rejectionMessage "Failed to fetch drivers" err)) s)))))).

Definition setSearchTerm (term : string) (s : State) : State :=
  setCurrentPageState 1 (setSearchTermState term s).

Definition setEmailSearchTerm (term : string) (s : State) : State :=
  setCurrentPageState 1 (setEmailSearchTermState term s).

Definition setSorting (column : SortColumn) (s : State) : State :=
  setCurrentPageState 1
    (if bool_decide (sortBy s = Some column)
     then setSortOrderState (match sortOrder s with asc => desc | desc => asc end) s
     else setSortOrderState asc (setSortByState (Some column) s)).

Definition setCurrentPage (page : Z) (s : State) : State :=
  setCurrentPageState page s.

Definition setItemsPerPage (limit : Z) (s : State) : State :=
  setCurrentPageState 1 (setItemsPerPageState limit s).

Definition clearAllFilters (s : State) : State :=
  setCurrentPageState 1
    (setSortOrderState asc
    (setSortByState None
    (setEmailSearchTermState ""
    (setSearchTermState "" s)))).

(** The hook together with the requests it has in flight. *)
Record World : Type := {
  hook : State;
  inflight : list QueryParams
}.

(** One call of [fetchData()]. *)
Definition callFetchData (w : World) : World :=
  {| hook := fetchDataBegin (hook w);
     inflight := inflight w ++ [queryParams (hook w)] |}.

Inductive Outcome : Type :=
| Fulfilled (response : Response)
| Rejected (err : Rejection).

(** The [i]-th request in flight settles: the rest of [fetchData] runs. *)
Definition settle (i : nat) (o : Outcome) (w : World) : World :=
  match inflight w !! i with
  | None => w
  | Some _ =>
      {| hook := match o with
                 | Fulfilled response => fetchDataResolved response (hook w)
                 | Rejected err => fetchDataRejected err (hook w)
                 end;
         inflight := delete i (inflight w) |}
  end.

(** The hook right after mounting: both debounce timers are running and
    the first request is in flight. *)
Definition mount : World :=
  callFetchData
    {| hook := setEmailSearchTimeout
                 (Some {| remaining := DEBOUNCE_MS; captured := "" |})
                 (setSearchTimeout
                    (Some {| remaining := DEBOUNCE_MS; captured := "" |}) initialState);
       inflight := [] |}.

(** A press on a page number: [setCurrentPage(page)], then the fetch
    effect, which runs [fetchData] when [currentPage] has changed. *)
Definition goToPage (page : Z) (w : World) : World :=
  let w' := {| hook := setCurrentPage page (hook w); inflight := inflight w |} in
  if bool_decide (currentPage (hook w) = page) then w' else callFetchData w'.

End Hook.

Arguments Response : clear implicits.
Arguments State : clear implicits.
Arguments World : clear implicits.
Arguments Outcome : clear implicits.

End DriversData.

(** ** VehicleTable and DriverTable *)

Module Tables.

(** [handlePageChange], the same in both tables: [totalPages] and
    [onCurrentPageChange] are props, and the callback acts on the state
    [S] of the hook that owns the page. *)
Definition handlePageChange {S : Type} (totalPages : Z)
    (onCurrentPageChange : Z -> S -> S) (page : Z) (s : S) : S :=
  if (page >=? 1) && (page <=? totalPages)
  then onCurrentPageChange page s
  else s.

(** [DriversPage] hands [totalPages] and [setCurrentPage] of
    [useDriversData] to its [DriverTable]. *)
Definition driverTablePageChange {Driver : Type} (page : Z)
    (s : DriversData.State Driver) : DriversData.State Driver :=
  handlePageChange (DriversData.totalPages s) DriversData.setCurrentPage page s.

(** [for (let i = first; i <= last; i++) pages.push(i)] *)
Definition pagesFromTo (first last : Z) : list Z := seqZ first (last - first + 1).

(** [getPageNumbers], the same in both tables. *)
Definition getPageNumbers (totalPages currentPage : Z) : list Z :=
  let maxVisiblePages := 5 in
  if totalPages <=? maxVisiblePages
  then pagesFromTo 1 totalPages
  else
    let startPage := Z.max 1 (currentPage - maxVisiblePages / 2) in
    let endPage := Z.min totalPages (startPage + maxVisiblePages - 1) in
    pagesFromTo startPage endPage.

(** The two numbers of "Showing a-b of n" in the table header. *)
Definition showingFrom (currentPage itemsPerPage : Z) : Z :=
  (currentPage - 1) * itemsPerPage + 1.

Definition showingTo (currentPage itemsPerPage totalCount : Z) : Z :=
  Z.min (currentPage * itemsPerPage) totalCount.

End Tables.

(** ** DashboardScreen

    Amounts of money are integers here; the properties below only run the
    cost reduction on an empty fleet, where it returns its seed. *)

Module Dashboard.

Record Vehicle : Type := {
  vName : string;
  vStatus : string;
  maintenanceCost : option Z    (* [v.maintenanceCost], possibly missing *)
}.

Record StatusCounts : Type := { active : Z; maintenance : Z; idle : Z }.

(** The backend summary; every field may be missing. *)
Record Summary : Type := {
  totalVehicles : option Z;
  totalDrivers : option Z;
  activeVehiclesCount : option Z;
  totalMaintenanceCost : option Z;
  vehicleStatusCounts : option StatusCounts;
  highestMaintenanceCostVehicle : option Vehicle;
  lowestMaintenanceCostVehicle : option Vehicle
}.

Section Screen.
Context {Driver : Type}.

Record FleetData : Type := {
  vehicles : list Vehicle;
  drivers : list Driver;
  summary : option Summary
}.

(** What the screen shows. *)
Record View : Type := {
  shownTotalVehicles : Z;
  shownTotalDrivers : Z;
  shownActiveVehicles : Z;
  shownTotalMaintenanceCost : Z;
  shownStatusCounts : StatusCounts;
  shownHighestCostVehicle : option Vehicle;
  shownLowestCostVehicle : option Vehicle
}.

(** [vehicles.filter(v => v.status === st).length] *)
Definition countStatus (st : string) (vs : list Vehicle) : Z :=
  Z.of_nat (length (filter (fun v => vStatus v = st) vs)).

(** [summary?.field ?? fallback] *)
Definition orElse {A : Type} (field : Summary -> option A) (s : option Summary)
    (fallback : A) : A :=
  match s with
  | Some sm => match field sm with Some x => x | None => fallback end
  | None => fallback
  end.

(** [summary?.field], rendered when truthy. *)
Definition optField {A : Type} (field : Summary -> option A) (s : option Summary)
    : option A :=
  match s with
  | Some sm => field sm
  | None => None
  end.

(** The derived values of [DashboardScreen] once loading is over and
    no error is set. *)
Definition dashboard (data : FleetData) : View :=
  let vs := vehicles data in
  let sm := summary data in
  {| shownTotalVehicles := orElse totalVehicles sm (Z.of_nat (length vs));
     shownTotalDrivers := orElse totalDrivers sm (Z.of_nat (length (drivers data)));
     shownActiveVehicles := orElse activeVehiclesCount sm (countStatus "active" vs);
     shownTotalMaintenanceCost :=
       orElse totalMaintenanceCost sm
         (foldl (fun sum v => sum + default 0 (maintenanceCost v)) 0 vs);
     shownStatusCounts :=
       orElse vehicleStatusCounts sm
         {| active := countStatus "active" vs;
            maintenance := countStatus "maintenance" vs;
            idle := countStatus "idle" vs |};
     shownHighestCostVehicle := optField highestMaintenanceCostVehicle sm;
     shownLowestCostVehicle := optField lowestMaintenanceCostVehicle sm |}.

End Screen.

Arguments FleetData : clear implicits.

End Dashboard.

(** ** Sample data *)

Import DateUtils GanttChart.

(** 2024-06-01 is day 19875 of the epoch. *)
Definition june1 : Date := 19875 * MS_PER_DAY.

Definition mkItem (s e : string) : GanttItem :=
  {| id := "item-1"; vehicleId := "vehicle-1"; type := schedule;
     startDate := s; endDate := e;
     title := "Delivery run"; color := "#3b82f6"; urgent := false |}.

(** A schedules hook that has learnt there are three pages; schedules
    are named by strings and the summary is a count. *)
Definition threePages : VehicleSchedulesData.State string Z :=
  VehicleSchedulesData.setTotalPages 3 VehicleSchedulesData.initialState.

Definition driversThreePages : DriversData.State string :=
  DriversData.setTotalPages 3 DriversData.initialState.

(** Worlds of the schedules hook used below. *)
Definition firstPageOfFive : VehicleSchedulesData.Response string :=
  {| VehicleSchedulesData.rVehicleSchedules := ["s-1"; "s-2"; "s-3"; "s-4"; "s-5"; "s-6"];
     VehicleSchedulesData.rTotalCount := 30;
     VehicleSchedulesData.rTotalPages := 5;
     VehicleSchedulesData.rHasNextPage := true;
     VehicleSchedulesData.rHasPreviousPage := false |}.

(** The first page has arrived and the user has moved on to page 2. *)
Definition onPage2 : VehicleSchedulesData.World string Z :=
  VehicleSchedulesData.run VehicleSchedulesData.mount
    [VehicleSchedulesData.Elapse 300;
     VehicleSchedulesData.Settle 0 (VehicleSchedulesData.Fulfilled firstPageOfFive 30);
     VehicleSchedulesData.Call (VehicleSchedulesData.SetCurrentPage 2)].

(** The hook at rest after mounting: timer fired, first answer in. *)
Definition atRest : VehicleSchedulesData.World string Z :=
  VehicleSchedulesData.run VehicleSchedulesData.mount
    [VehicleSchedulesData.Elapse 300;
     VehicleSchedulesData.Settle 0 (VehicleSchedulesData.Fulfilled firstPageOfFive 30)].

Definition vanResponse : VehicleSchedulesData.Response string :=
  {| VehicleSchedulesData.rVehicleSchedules := ["van-7"];
     VehicleSchedulesData.rTotalCount := 1;
     VehicleSchedulesData.rTotalPages := 1;
     VehicleSchedulesData.rHasNextPage := false;
     VehicleSchedulesData.rHasPreviousPage := false |}.

Definition allResponse : VehicleSchedulesData.Response string :=
  {| VehicleSchedulesData.rVehicleSchedules := ["car-1"; "van-7"; "truck-2"];
     VehicleSchedulesData.rTotalCount := 3;
     VehicleSchedulesData.rTotalPages := 1;
     VehicleSchedulesData.rHasNextPage := false;
     VehicleSchedulesData.rHasPreviousPage := false |}.

(** The request sent at mount is still in flight; the user has searched
    for "van" meanwhile, and the answer to that search has arrived. *)
Definition staleInFlight : VehicleSchedulesData.World string Z :=
  VehicleSchedulesData.run VehicleSchedulesData.mount
    [VehicleSchedulesData.Call (VehicleSchedulesData.SetSearchTerm "van");
     VehicleSchedulesData.Elapse 300;
     VehicleSchedulesData.Settle 1 (VehicleSchedulesData.Fulfilled vanResponse 1)].

(** Two requests in flight: the one sent at mount and the one for the
    search "van". *)
Definition twoInFlight : VehicleSchedulesData.World string Z :=
  VehicleSchedulesData.run VehicleSchedulesData.mount
    [VehicleSchedulesData.Call (VehicleSchedulesData.SetSearchTerm "van");
     VehicleSchedulesData.Elapse 300].

(** Items of two vehicles, as they come from the backend. *)
Definition itemOf (vehicle name s e : string) : GanttItem :=
  {| id := name; vehicleId := vehicle; type := maintenance;
     startDate := s; endDate := e;
     title := name; color := "#f59e0b"; urgent := true |}.

Definition twoVehicles : list GanttItem :=
  [itemOf "v-1" "a" "2024-06-01" "2024-06-02";
   itemOf "v-2" "b" "2024-06-02" "2024-06-04";
   itemOf "v-1" "c" "2024-06-03" "2024-06-09"].

(** A fleet of three vehicles, one of them with a status of its own. *)
Definition smallFleet : Dashboard.FleetData string :=
  {| Dashboard.vehicles :=
       [{| Dashboard.vName := "Van"; Dashboard.vStatus := "active";
           Dashboard.maintenanceCost := Some 120 |};
        {| Dashboard.vName := "Truck"; Dashboard.vStatus := "idle";
           Dashboard.maintenanceCost := None |};
        {| Dashboard.vName := "Bus"; Dashboard.vStatus := "retired";
           Dashboard.maintenanceCost := Some 80 |}];
     Dashboard.drivers := ["Ana"];
     Dashboard.summary := None |}.

(** A fleet in which every vehicle has one of the three statuses. *)
Definition knownFleet : Dashboard.FleetData string :=
  {| Dashboard.vehicles :=
       [{| Dashboard.vName := "Van"; Dashboard.vStatus := "active";
           Dashboard.maintenanceCost := Some 120 |};
        {| Dashboard.vName := "Truck"; Dashboard.vStatus := "idle";
           Dashboard.maintenanceCost := None |};
        {| Dashboard.vName := "Bus"; Dashboard.vStatus := "maintenance";
           Dashboard.maintenanceCost := Some 80 |}];
     Dashboard.drivers := ["Ana"];
     Dashboard.summary := None |}.

(** The answer to a request for page 2 of 5. *)
Definition secondPageOfFive : VehicleSchedulesData.Response string :=
  {| VehicleSchedulesData.rVehicleSchedules := ["s-7"; "s-8"; "s-9"; "s-10"; "s-11"; "s-12"];
     VehicleSchedulesData.rTotalCount := 30;
     VehicleSchedulesData.rTotalPages := 5;
     VehicleSchedulesData.rHasNextPage := true;
     VehicleSchedulesData.rHasPreviousPage := true |}.

(** From rest on page 1 of 5: the user presses Next, then toggles the
    filter "completed" while page 2 is loading (the page goes back to 1),
    and then the answer for page 2 arrives. *)
Definition backOnPage1 : VehicleSchedulesData.World string Z :=
  VehicleSchedulesData.step
    (VehicleSchedulesData.step
       (VehicleSchedulesPage.pressNext atRest)
       (VehicleSchedulesData.Call (VehicleSchedulesData.ToggleStatusFilter "completed")))
    (VehicleSchedulesData.Settle 0 (VehicleSchedulesData.Fulfilled secondPageOfFive 30)).

(** Answers for the other two hooks. *)
Definition ordersResponse : MaintenanceOrdersData.Response string :=
  {| MaintenanceOrdersData.rMaintenanceOrders := ["mo-1"; "mo-2"];
     MaintenanceOrdersData.rTotalCount := 2;
     MaintenanceOrdersData.rTotalPages := 1;
     MaintenanceOrdersData.rHasNextPage := false;
     MaintenanceOrdersData.rHasPreviousPage := false |}.

Definition driversResponse : DriversData.Response string :=
  {| DriversData.rDrivers := ["Ana"; "Luis"];
     DriversData.rTotalCount := 2;
     DriversData.rTotalPages := 1;
     DriversData.rHasNextPage := false;
     DriversData.rHasPreviousPage := false |}.

(** * Properties *)

(** ** Calendar helpers *)

Lemma calendarDay_bounds (d : Date) :
  calendarDay d * MS_PER_DAY <= d < calendarDay d * MS_PER_DAY + MS_PER_DAY.
Proof.
  unfold calendarDay, MS_PER_DAY. Z.div_mod_to_equations. lia.
Qed.

Lemma calendarDay_mono (a b : Date) : a <= b -> calendarDay a <= calendarDay b.
Proof.
  intros Hab. unfold calendarDay, MS_PER_DAY. apply Z.div_le_mono; lia.
Qed.

Lemma calendarDay_start (day : Z) : calendarDay (day * MS_PER_DAY) = day.
Proof.
  unfold calendarDay, MS_PER_DAY. apply Z.div_mul. lia.
Qed.

Lemma calendarDay_end (day : Z) :
  calendarDay (day * MS_PER_DAY + (MS_PER_DAY - 1)) = day.
Proof.
  unfold calendarDay, MS_PER_DAY. symmetry.
  apply (Z.div_unique _ _ day (86400000 - 1)); lia.
Qed.

Lemma calendarDay_addDays (d : Date) (n : Z) :
  calendarDay (addDaysToDate d n) = calendarDay d + n.
Proof.
  unfold calendarDay, addDaysToDate, MS_PER_DAY. apply Z.div_add. lia.
Qed.

(** The two sample properties the specification gives for [daysBetween]. *)
Lemma getDaysBetweenDates_same_day (d : Date) : getDaysBetweenDates d d = 1.
Proof. unfold getDaysBetweenDates. lia. Qed.

Lemma getDaysBetweenDates_addDays (d : Date) (n : Z) :
  getDaysBetweenDates (addDaysToDate d n) d = - n + 1.
Proof. unfold getDaysBetweenDates. rewrite calendarDay_addDays. lia. Qed.

Lemma parseDate_Ok (str : string) (d : Date) :
  parseDate str = Ok d -> exists day, d = day * MS_PER_DAY.
Proof.
  unfold parseDate. destruct (parseCalendarDay str) as [day|ex]; simpl; [|discriminate].
  intros [= <-]. eauto.
Qed.

Lemma parseDateEnd_Ok (str : string) (d : Date) :
  parseDateEnd str = Ok d -> exists day, d = day * MS_PER_DAY + (MS_PER_DAY - 1).
Proof.
  unfold parseDateEnd. destruct (parseCalendarDay str) as [day|ex]; simpl; [|discriminate].
  intros [= <-]. eauto.
Qed.

Lemma Raise_ParseError {A : Type} (e : Exn) : @Raise A e = Raise ParseError.
Proof. destruct e. reflexivity. Qed.

(** ** Timeline layout *)

(** [calculateItemPosition] once both dates have parsed. *)
Lemma calculateItemPosition_parsed chartStart daysToShow item s e :
  parseDate (startDate item) = Ok s ->
  parseDateEnd (endDate item) = Ok e ->
  calculateItemPosition chartStart daysToShow item =
    let chartEnd := addDaysToDate chartStart (daysToShow - 1) in
    if (e <? chartStart) || (s >? chartEnd) then Ok None
    else
      let vs := if s <? chartStart then chartStart else s in
      let ve := if e >? chartEnd then chartEnd else e in
      Ok (Some {| left := Z.max 0 ((getDaysBetweenDates chartStart vs - 1) * DAY_WIDTH_PX);
                  width := Z.max 20 (getDaysBetweenDates vs ve * DAY_WIDTH_PX - 2) |}).
Proof.
  intros Hs He. unfold calculateItemPosition. rewrite Hs, He. reflexivity.
Qed.

(** C1. For every window ([chartStart], [daysToShow >= 1]) and every item
    whose parsed range lies outside it (its end-of-day end is before the
    window start, or its start-of-day start is after the window end
    [addDaysToDate chartStart (daysToShow - 1)]), [calculateItemPosition]
    returns null: the item is not rendered. *)
Theorem C1_item_outside_window_is_null
    (chartStart : Date) (daysToShow : Z) (item : GanttItem) (s e : Date) :
  1 <= daysToShow ->
  parseDate (startDate item) = Ok s ->
  parseDateEnd (endDate item) = Ok e ->
  e < chartStart \/ addDaysToDate chartStart (daysToShow - 1) < s ->
  calculateItemPosition chartStart daysToShow item = Ok None.
Proof.
  intros _ Hs He Hout.
  rewrite (calculateItemPosition_parsed _ _ _ _ _ Hs He). cbv zeta.
  destruct Hout as [Hbefore | Hafter].
  - apply Z.ltb_lt in Hbefore. rewrite Hbefore. reflexivity.
  - apply Z.gt_lt_iff, Z.gtb_gt in Hafter. rewrite Hafter, orb_true_r. reflexivity.
Qed.

Lemma C1_item_outside_window_is_null_witness :
  calculateItemPosition june1 7 (mkItem "2024-05-20" "2024-05-31") = Ok None.
Proof.
  apply (C1_item_outside_window_is_null june1 7
           (mkItem "2024-05-20" "2024-05-31")
           (19863 * MS_PER_DAY) (19874 * MS_PER_DAY + (MS_PER_DAY - 1))).
  - lia.
  - reflexivity.
  - reflexivity.
  - left. vm_compute. reflexivity.
Defined.

(** The same in calendar days: an item that ends on a day before the
    first day of the window, or starts on a day after its last day, gets no
    position, whatever the time of day of the window start. *)
Lemma outside_days_is_null
    (chartStart : Date) (daysToShow : Z) (item : GanttItem) (s e : Date) :
  parseDate (startDate item) = Ok s ->
  parseDateEnd (endDate item) = Ok e ->
  calendarDay e < calendarDay chartStart \/
  calendarDay chartStart + (daysToShow - 1) < calendarDay s ->
  calculateItemPosition chartStart daysToShow item = Ok None.
Proof.
  intros Hs He Hout.
  rewrite (calculateItemPosition_parsed _ _ _ _ _ Hs He). cbv zeta.
  pose proof (calendarDay_bounds chartStart) as Hc.
  pose proof (calendarDay_bounds e) as Hbe.
  pose proof (calendarDay_bounds s) as Hbs.
  pose proof (calendarDay_bounds (addDaysToDate chartStart (daysToShow - 1))) as Hce.
  rewrite calendarDay_addDays in Hce.
  destruct Hout as [Hbefore | Hafter].
  - assert (Hlt : (e <? chartStart) = true)
      by (apply Z.ltb_lt; unfold MS_PER_DAY in *; nia).
    rewrite Hlt. reflexivity.
  - assert (Hgt : (s >? addDaysToDate chartStart (daysToShow - 1)) = true)
      by (apply Z.gtb_gt, Z.lt_gt; unfold MS_PER_DAY in *; nia).
    rewrite Hgt, orb_true_r. reflexivity.
Qed.

(** Clipping to the window keeps the calendar days of an item whose
    start and end fall on days of the window; this gives its position in
    closed form. *)
Lemma position_inside_days
    (chartStart : Date) (daysToShow : Z) (item : GanttItem) (s e : Date) :
  parseDate (startDate item) = Ok s ->
  parseDateEnd (endDate item) = Ok e ->
  calendarDay chartStart <= calendarDay s <= calendarDay chartStart + (daysToShow - 1) ->
  calendarDay chartStart <= calendarDay e <= calendarDay chartStart + (daysToShow - 1) ->
  calculateItemPosition chartStart daysToShow item =
    Ok (Some {| left := Z.max 0 ((calendarDay s - calendarDay chartStart) * 120);
                width := Z.max 20 ((calendarDay e - calendarDay s + 1) * 120 - 2) |}).
Proof.
  intros Hs He Hsin Hein.
  rewrite (calculateItemPosition_parsed _ _ _ _ _ Hs He). cbv zeta.
  destruct (parseDate_Ok _ _ Hs) as [ds ->].
  destruct (parseDateEnd_Ok _ _ He) as [de ->].
  rewrite calendarDay_start in *. rewrite calendarDay_end in *.
  set (chartEnd := addDaysToDate chartStart (daysToShow - 1)).
  pose proof (calendarDay_bounds chartStart) as Hc.
  pose proof (calendarDay_bounds chartEnd) as Hce.
  assert (HdayEnd : calendarDay chartEnd = calendarDay chartStart + (daysToShow - 1))
    by apply calendarDay_addDays.
  rewrite HdayEnd in Hce.
  (* the item is visible *)
  assert (Hvis : (de * MS_PER_DAY + (MS_PER_DAY - 1) <? chartStart)
                 || (ds * MS_PER_DAY >? chartEnd) = false).
  { apply orb_false_iff. split.
    - apply Z.ltb_ge. unfold MS_PER_DAY in *. nia.
    - rewrite Z.gtb_ltb. apply Z.ltb_ge. unfold MS_PER_DAY in *. nia. }
  rewrite Hvis.
  (* clipping keeps the calendar days of both ends *)
  assert (Hvs : calendarDay (if ds * MS_PER_DAY <? chartStart
                             then chartStart else ds * MS_PER_DAY) = ds).
  { destruct (Z.ltb_spec (ds * MS_PER_DAY) chartStart) as [Hlt|Hge].
    - unfold MS_PER_DAY in *. nia.
    - apply calendarDay_start. }
  assert (Hve : calendarDay (if de * MS_PER_DAY + (MS_PER_DAY - 1) >? chartEnd
                             then chartEnd else de * MS_PER_DAY + (MS_PER_DAY - 1)) = de).
  { rewrite Z.gtb_ltb.
    destruct (Z.ltb_spec chartEnd (de * MS_PER_DAY + (MS_PER_DAY - 1))) as [Hlt|Hge].
    - rewrite HdayEnd. unfold MS_PER_DAY in *. nia.
    - apply calendarDay_end. }
  unfold getDaysBetweenDates. rewrite Hvs, Hve. unfold DAY_WIDTH_PX.
  do 3 f_equal. lia.
Qed.

(** C2. For every item whose parsed range lies inside the window, that is,
    whose start and end both fall on days of
    [chartStart .. chartStart + daysToShow - 1], [calculateItemPosition]
    returns a position with [left >= 0] and
    [left + width <= daysToShow * 120]: the bar does not start before the
    left edge of the chart and does not pass its right edge. *)
Theorem C2_item_inside_window_stays_in_chart
    (chartStart : Date) (daysToShow : Z) (item : GanttItem) (s e : Date) :
  parseDate (startDate item) = Ok s ->
  parseDateEnd (endDate item) = Ok e ->
  calendarDay chartStart <= calendarDay s <= calendarDay chartStart + (daysToShow - 1) ->
  calendarDay chartStart <= calendarDay e <= calendarDay chartStart + (daysToShow - 1) ->
  exists p,
    calculateItemPosition chartStart daysToShow item = Ok (Some p) /\
    0 <= left p /\
    left p + width p <= daysToShow * 120.
Proof.
  intros Hs He Hsin Hein.
  rewrite (position_inside_days _ _ _ _ _ Hs He Hsin Hein).
  eexists. split; [reflexivity|]. cbn [left width].
  split; [apply Z.le_max_l|].
  (* the bar is either the minimal 20 px or ends with the item's last day *)
  destruct (Z.max_spec 20 ((calendarDay e - calendarDay s + 1) * 120 - 2)) as [[_ ->]|[_ ->]];
    destruct (Z.max_spec 0 ((calendarDay s - calendarDay chartStart) * 120)) as [[_ ->]|[_ ->]];
    lia.
Qed.

Lemma C2_item_inside_window_stays_in_chart_witness :
  exists p,
    calculateItemPosition june1 7 (mkItem "2024-06-02" "2024-06-07") = Ok (Some p) /\
    0 <= left p /\
    left p + width p <= 7 * 120.
Proof.
  apply (C2_item_inside_window_stays_in_chart june1 7
           (mkItem "2024-06-02" "2024-06-07")
           (19876 * MS_PER_DAY) (19881 * MS_PER_DAY + (MS_PER_DAY - 1))).
  - reflexivity.
  - reflexivity.
  - vm_compute. split; discriminate.
  - vm_compute. split; discriminate.
Defined.

(** The same for a well-ordered item between the first and the last
    instant of the window. *)
Lemma position_inside_instants
    (chartStart : Date) (daysToShow : Z) (item : GanttItem) (s e : Date) :
  parseDate (startDate item) = Ok s ->
  parseDateEnd (endDate item) = Ok e ->
  chartStart <= s -> s <= e -> e <= addDaysToDate chartStart (daysToShow - 1) ->
  exists p,
    calculateItemPosition chartStart daysToShow item = Ok (Some p) /\
    0 <= left p /\
    left p + width p <= daysToShow * 120.
Proof.
  intros Hs He H1 H2 H3.
  pose proof (calendarDay_mono _ _ H1) as M1.
  pose proof (calendarDay_mono _ _ H2) as M2.
  pose proof (calendarDay_mono _ _ H3) as M3.
  rewrite calendarDay_addDays in M3.
  rewrite (position_inside_days _ _ _ _ _ Hs He) by lia.
  eexists. split; [reflexivity|]. cbn [left width]. lia.
Qed.

(** An item on the last day of a window that starts at midnight ends
    after the window's last instant, and still fits the chart. *)
Example last_day_item_fits :
  calculateItemPosition june1 7 (mkItem "2024-06-07" "2024-06-07")
  = Ok (Some {| left := 720; width := 118 |}).
Proof. vm_compute. reflexivity. Qed.

(** The scenario of the specification: window from 2024-06-01 for 7 days,
    item from 2024-05-30 to 2024-06-02: visible, clipped, at offset 0. *)
Example scenario_clipped_at_left_edge :
  calculateItemPosition june1 7 (mkItem "2024-05-30" "2024-06-02")
  = Ok (Some {| left := 0; width := 238 |}).
Proof. vm_compute. reflexivity. Qed.

(** One failing item makes the whole row fail. *)
Lemma renderItemsFrom_raises chartStart daysToShow item :
  calculateItemPosition chartStart daysToShow item = Raise ParseError ->
  forall before after k,
    renderItemsFrom chartStart daysToShow k (before ++ item :: after) = Raise ParseError.
Proof.
  intros Hbad before after.
  induction before as [|b before IH]; intros k; cbn [app renderItemsFrom].
  - unfold renderItem. rewrite Hbad. reflexivity.
  - destruct (renderItem chartStart daysToShow k b) as [bar|ex]; cbn [bind].
    + rewrite IH. reflexivity.
    + apply Raise_ParseError.
Qed.

(** C3 (as the code has it). A malformed [startDate] or [endDate] is not
    turned into null: the [ParseError] of the parser leaves
    [calculateItemPosition] uncaught, and with it the map over the items of
    the vehicle row, whatever the other items of the row are. *)
Theorem C3_malformed_date_raises
    (chartStart : Date) (daysToShow : Z) (item : GanttItem) :
  parseDate (startDate item) = Raise ParseError \/
  parseDateEnd (endDate item) = Raise ParseError ->
  calculateItemPosition chartStart daysToShow item = Raise ParseError /\
  forall before after,
    renderRow chartStart daysToShow (before ++ item :: after) = Raise ParseError.
Proof.
  intros Hbad.
  assert (Hraise : calculateItemPosition chartStart daysToShow item = Raise ParseError).
  { unfold calculateItemPosition. destruct Hbad as [Hs | He].
    - rewrite Hs. reflexivity.
    - rewrite He. destruct (parseDate (startDate item)) as [s|ex]; cbn [bind].
      + reflexivity.
      + apply Raise_ParseError. }
  split; [exact Hraise|].
  intros before after. unfold renderRow. now apply renderItemsFrom_raises.
Qed.

Lemma C3_malformed_date_raises_witness :
  calculateItemPosition june1 7 (mkItem "2024-13-45" "2024-06-02") = Raise ParseError /\
  forall before after,
    renderRow june1 7 (before ++ mkItem "2024-13-45" "2024-06-02" :: after)
    = Raise ParseError.
Proof.
  apply (C3_malformed_date_raises june1 7 (mkItem "2024-13-45" "2024-06-02")).
  left. reflexivity.
Defined.

(** C3, as stated, fails: for an item with a malformed start date the
    result is not null, and a well-formed item next to it in the row is not
    rendered either. *)
Lemma C3_counterexample :
  calculateItemPosition june1 7 (mkItem "2024-13-45" "2024-06-02") <> Ok None /\
  calculateItemPosition june1 7 (mkItem "2024-06-02" "2024-06-03")
    = Ok (Some {| left := 120; width := 238 |}) /\
  renderRow june1 7 [mkItem "2024-13-45" "2024-06-02"; mkItem "2024-06-02" "2024-06-03"]
    = Raise ParseError.
Proof.
  split; [|split].
  - vm_compute. discriminate.
  - vm_compute. reflexivity.
  - vm_compute. reflexivity.
Qed.

(** ** List query state *)

(** *** Pages *)

(** [setCurrentPage] stores any page number and touches nothing else. *)
Lemma setCurrentPage_stores_any_page {VS VSS : Type}
    (s : VehicleSchedulesData.State VS VSS) (n : Z) :
  VehicleSchedulesData.currentPage (VehicleSchedulesData.setCurrentPage n s) = n /\
  VehicleSchedulesData.setCurrentPage n s = VehicleSchedulesData.setCurrentPageState n s.
Proof. destruct s. split; reflexivity. Qed.

(** With three pages known and page 1 shown, [setCurrentPage 0] and
    [setCurrentPage 7] both change the page. *)
Lemma setCurrentPage_has_no_range_check :
  VehicleSchedulesData.totalPages threePages = 3 /\
  VehicleSchedulesData.currentPage threePages = 1 /\
  VehicleSchedulesData.currentPage (VehicleSchedulesData.setCurrentPage 0 threePages) = 0 /\
  VehicleSchedulesData.currentPage (VehicleSchedulesData.setCurrentPage 7 threePages) = 7.
Proof. repeat split. Qed.

(** The range check exists one layer up, in the tables'
    [handlePageChange]: for [n < 1] or [n > totalPages] it does not call
    [onCurrentPageChange], so the state of the hook behind it, page
    included, is left as it was. *)
Lemma handlePageChange_rejects_out_of_range_page {S : Type}
    (totalPages : Z) (onCurrentPageChange : Z -> S -> S) (n : Z) (s : S) :
  n < 1 \/ n > totalPages ->
  Tables.handlePageChange totalPages onCurrentPageChange n s = s.
Proof.
  intros Hout. unfold Tables.handlePageChange.
  destruct (Z.geb_spec n 1) as [Hge|Hlt]; cbn [andb].
  - destruct (Z.leb_spec n totalPages) as [Hle|Hgt]; [lia | reflexivity].
  - reflexivity.
Qed.

Lemma handlePageChange_rejects_out_of_range_page_witness :
  Tables.handlePageChange (DriversData.totalPages driversThreePages)
    DriversData.setCurrentPage 4 driversThreePages = driversThreePages.
Proof.
  apply (handlePageChange_rejects_out_of_range_page
           (DriversData.totalPages driversThreePages)
           DriversData.setCurrentPage 4 driversThreePages).
  right. vm_compute. reflexivity.
Defined.

(** The Previous and Next buttons of the schedules page do not go through
    [handlePageChange]: when shown and enabled they store
    [currentPage - 1] and [currentPage + 1] whatever [totalPages] is. *)
Lemma page_buttons_do_not_check_the_range
    {VS VSS : Type} (w : VehicleSchedulesData.World VS VSS) :
  VehicleSchedulesPage.paginationShown w = true ->
  (VehicleSchedulesPage.previousDisabled w = false ->
   VehicleSchedulesData.currentPage
     (VehicleSchedulesData.hook (VehicleSchedulesPage.pressPrevious w))
   = VehicleSchedulesData.currentPage (VehicleSchedulesData.hook w) - 1) /\
  (VehicleSchedulesPage.nextDisabled w = false ->
   VehicleSchedulesData.currentPage
     (VehicleSchedulesData.hook (VehicleSchedulesPage.pressNext w))
   = VehicleSchedulesData.currentPage (VehicleSchedulesData.hook w) + 1).
Proof.
  intros Hshown. split; intros Hon.
  - unfold VehicleSchedulesPage.pressPrevious. rewrite Hshown, Hon. cbn [negb andb].
    cbn [VehicleSchedulesData.step]. unfold VehicleSchedulesData.afterRender.
    destruct (VehicleSchedulesData.fetchDepsChanged _ _);
      destruct (VehicleSchedulesData.hook w);
      cbn; unfold VehicleSchedulesData.debounceEffect; cbn;
      rewrite bool_decide_eq_true_2 by reflexivity; reflexivity.
  - unfold VehicleSchedulesPage.pressNext. rewrite Hshown, Hon. cbn [negb andb].
    cbn [VehicleSchedulesData.step]. unfold VehicleSchedulesData.afterRender.
    destruct (VehicleSchedulesData.fetchDepsChanged _ _);
      destruct (VehicleSchedulesData.hook w);
      cbn; unfold VehicleSchedulesData.debounceEffect; cbn;
      rewrite bool_decide_eq_true_2 by reflexivity; reflexivity.
Qed.

(** C4 (the code at the failing input). The schedules page is at rest on
    page 1 of 5. The user presses Next, toggles the status filter
    "completed" while page 2 is loading, and the answer for page 2 then
    arrives: the page is 1 again, five pages are known, and the stale
    answer has set [hasPreviousPage] and cleared [loading], so Previous is
    shown and enabled. A press on it is not rejected: [setCurrentPage]
    stores page 0 and a request for page 0 is sent. The same press routed
    through the tables' [handlePageChange] would have left the state as it
    was. *)
Theorem C4_previous_button_requests_page_0 :
  let before := backOnPage1 in
  let after := VehicleSchedulesPage.pressPrevious before in
  VehicleSchedulesData.totalPages (VehicleSchedulesData.hook before) = 5 /\
  VehicleSchedulesData.currentPage (VehicleSchedulesData.hook before) = 1 /\
  VehicleSchedulesPage.paginationShown before = true /\
  VehicleSchedulesPage.previousDisabled before = false /\
  VehicleSchedulesData.currentPage (VehicleSchedulesData.hook after) = 0 /\
  VehicleSchedulesData.totalPages (VehicleSchedulesData.hook after) = 5 /\
  map VehicleSchedulesData.qPage (VehicleSchedulesData.issued after)
  = map VehicleSchedulesData.qPage (VehicleSchedulesData.issued before) ++ [0] /\
  Tables.handlePageChange
    (VehicleSchedulesData.totalPages (VehicleSchedulesData.hook before))
    VehicleSchedulesData.setCurrentPage
    (VehicleSchedulesData.currentPage (VehicleSchedulesData.hook before) - 1)
    (VehicleSchedulesData.hook before)
  = VehicleSchedulesData.hook before.
Proof. vm_compute. repeat split. Qed.

(** In range, the table passes the page on to the hook. *)
Lemma handlePageChange_in_range {S : Type}
    (totalPages : Z) (onCurrentPageChange : Z -> S -> S) (n : Z) (s : S) :
  1 <= n <= totalPages ->
  Tables.handlePageChange totalPages onCurrentPageChange n s = onCurrentPageChange n s.
Proof.
  intros [Hlo Hhi]. unfold Tables.handlePageChange.
  destruct (Z.geb_spec n 1) as [_|Hlt]; [|lia].
  destruct (Z.leb_spec n totalPages) as [_|Hgt]; [reflexivity | lia].
Qed.

Lemma driverTablePageChange_out_of_range {Driver : Type}
    (s : DriversData.State Driver) (n : Z) :
  n < 1 \/ n > DriversData.totalPages s ->
  Tables.driverTablePageChange n s = s.
Proof.
  intros Hout. unfold Tables.driverTablePageChange, Tables.handlePageChange.
  destruct (Z.geb_spec n 1) as [Hge|Hlt]; cbn [andb]; [|reflexivity].
  destruct (Z.leb_spec n (DriversData.totalPages s)) as [Hle|Hgt]; [lia | reflexivity].
Qed.

(** *** Status filters *)

Lemma toggled_twice (v : string) (l : list string) :
  list_to_set (toggled v (toggled v l)) =@{gset string} list_to_set l.
Proof.
  unfold toggled. destruct (decide (v ∈ l)) as [Hin|Hnotin].
  - rewrite (bool_decide_eq_true_2 _ Hin).
    rewrite bool_decide_eq_false_2.
    + rewrite list_to_set_app_L. apply set_eq. intros x.
      rewrite elem_of_union, !elem_of_list_to_set, list_elem_of_filter.
      rewrite list_elem_of_singleton.
      destruct (decide (x = v)) as [->|Hne]; tauto.
    + rewrite list_elem_of_filter. tauto.
  - rewrite (bool_decide_eq_false_2 _ Hnotin).
    rewrite bool_decide_eq_true_2
      by (apply elem_of_app; right; apply list_elem_of_singleton; reflexivity).
    rewrite filter_app. apply set_eq. intros x.
    rewrite !elem_of_list_to_set, elem_of_app, !list_elem_of_filter.
    rewrite list_elem_of_singleton.
    destruct (decide (x = v)) as [->|Hne]; tauto.
Qed.

(** C6. Toggling the same status twice restores the filter set (as a set
    of values) and leaves the page at 1, where the first toggle put it;
    this holds for the schedules hook and for the maintenance-orders
    hook. *)
Theorem C6_toggle_twice_restores_filter_set {VS VSS MO MOS : Type}
    (s : VehicleSchedulesData.State VS VSS)
    (m : MaintenanceOrdersData.State MO MOS) (v : string) :
  (let s1 := VehicleSchedulesData.toggleStatusFilter v s in
   let s2 := VehicleSchedulesData.toggleStatusFilter v s1 in
   list_to_set (VehicleSchedulesData.statusFilters s2)
     =@{gset string} list_to_set (VehicleSchedulesData.statusFilters s) /\
   VehicleSchedulesData.currentPage s1 = 1 /\
   VehicleSchedulesData.currentPage s2 = 1) /\
  (let m1 := MaintenanceOrdersData.toggleStatusFilter v m in
   let m2 := MaintenanceOrdersData.toggleStatusFilter v m1 in
   list_to_set (MaintenanceOrdersData.statusFilters m2)
     =@{gset string} list_to_set (MaintenanceOrdersData.statusFilters m) /\
   MaintenanceOrdersData.currentPage m1 = 1 /\
   MaintenanceOrdersData.currentPage m2 = 1).
Proof.
  split.
  - destruct s; cbn. split; [apply toggled_twice | split; reflexivity].
  - destruct m; cbn. split; [apply toggled_twice | split; reflexivity].
Qed.

(** The list itself may come back in another order. *)
Example toggle_twice_reorders :
  toggled "active" (toggled "active" ["active"; "scheduled"]) = ["scheduled"; "active"].
Proof. reflexivity. Qed.

(** *** Clearing *)

(** C7. [clearAllFilters] resets search term, sort and page to their
    initial values from any state, and sets the status filters to
    [active; scheduled] (not the empty set) on the schedules page and to
    the empty list on the maintenance-orders page; on the drivers page,
    which has no status filter, both search terms are emptied. *)
Theorem C7_clearAllFilters_defaults {VS VSS MO MOS D : Type}
    (s : VehicleSchedulesData.State VS VSS)
    (m : MaintenanceOrdersData.State MO MOS)
    (d : DriversData.State D) :
  (let s' := VehicleSchedulesData.clearAllFilters s in
   let s0 := @VehicleSchedulesData.initialState VS VSS in
   VehicleSchedulesData.searchTerm s' = "" /\
   VehicleSchedulesData.statusFilters s' = ["active"; "scheduled"] /\
   list_to_set (VehicleSchedulesData.statusFilters s') ≠@{gset string} ∅ /\
   VehicleSchedulesData.sortBy s' = Some VehicleSchedulesData.startDate /\
   VehicleSchedulesData.sortOrder s' = desc /\
   VehicleSchedulesData.currentPage s' = 1 /\
   VehicleSchedulesData.searchTerm s' = VehicleSchedulesData.searchTerm s0 /\
   VehicleSchedulesData.statusFilters s' = VehicleSchedulesData.statusFilters s0 /\
   VehicleSchedulesData.sortBy s' = VehicleSchedulesData.sortBy s0 /\
   VehicleSchedulesData.sortOrder s' = VehicleSchedulesData.sortOrder s0 /\
   VehicleSchedulesData.currentPage s' = VehicleSchedulesData.currentPage s0) /\
  (let m' := MaintenanceOrdersData.clearAllFilters m in
   let m0 := @MaintenanceOrdersData.initialState MO MOS in
   MaintenanceOrdersData.searchTerm m' = "" /\
   MaintenanceOrdersData.statusFilters m' = [] /\
   MaintenanceOrdersData.sortBy m' = Some MaintenanceOrdersData.startDate /\
   MaintenanceOrdersData.sortOrder m' = desc /\
   MaintenanceOrdersData.currentPage m' = 1 /\
   MaintenanceOrdersData.searchTerm m' = MaintenanceOrdersData.searchTerm m0 /\
   MaintenanceOrdersData.sortBy m' = MaintenanceOrdersData.sortBy m0 /\
   MaintenanceOrdersData.sortOrder m' = MaintenanceOrdersData.sortOrder m0 /\
   MaintenanceOrdersData.currentPage m' = MaintenanceOrdersData.currentPage m0) /\
  (let d' := DriversData.clearAllFilters d in
   let d0 := @DriversData.initialState D in
   DriversData.searchTerm d' = "" /\
   DriversData.emailSearchTerm d' = "" /\
   DriversData.sortBy d' = None /\
   DriversData.sortOrder d' = asc /\
   DriversData.currentPage d' = 1 /\
   DriversData.searchTerm d' = DriversData.searchTerm d0 /\
   DriversData.emailSearchTerm d' = DriversData.emailSearchTerm d0 /\
   DriversData.sortBy d' = DriversData.sortBy d0 /\
   DriversData.sortOrder d' = DriversData.sortOrder d0 /\
   DriversData.currentPage d' = DriversData.currentPage d0).
Proof.
  split; [|split].
  - destruct s; cbn. repeat split; try reflexivity.
    intros Hempty. apply (f_equal (fun X : gset string => bool_decide ("active" ∈ X))) in Hempty.
    vm_compute in Hempty. discriminate.
  - destruct m; cbn. repeat split; reflexivity.
  - destruct d; cbn. repeat split; reflexivity.
Qed.

(** On the maintenance-orders page the cleared filter set is not the
    initial one. *)
Example orders_clear_is_not_initial :
  MaintenanceOrdersData.statusFilters
    (MaintenanceOrdersData.clearAllFilters (@MaintenanceOrdersData.initialState string nat))
  = [] /\
  MaintenanceOrdersData.statusFilters (@MaintenanceOrdersData.initialState string nat)
  = ["active"; "scheduled"; "pending_authorization"].
Proof. split; reflexivity. Qed.

(** *** Failed fetches *)

(** C10. When the fetch rejects, each list hook sets the error message
    and, in the same batch, empties the visible result: no items, counts
    and pages 0, no next or previous page, and no summary where the hook
    has one. *)
Theorem C10_rejected_fetch_clears_result {VS VSS MO MOS D : Type}
    (s : VehicleSchedulesData.State VS VSS)
    (m : MaintenanceOrdersData.State MO MOS)
    (d : DriversData.State D) (err : Rejection) :
  (let s' := VehicleSchedulesData.fetchDataRejected err s in
   VehicleSchedulesData.error s'
     = Some (rejectionMessage "Failed to fetch vehicle schedules" err) /\
   VehicleSchedulesData.vehicleSchedules s' = [] /\
   VehicleSchedulesData.totalCount s' = 0 /\
   VehicleSchedulesData.totalPages s' = 0 /\
   VehicleSchedulesData.hasNextPage s' = false /\
   VehicleSchedulesData.hasPreviousPage s' = false /\
   VehicleSchedulesData.vehicleScheduleSummary s' = None /\
   VehicleSchedulesData.loading s' = false) /\
  (let m' := MaintenanceOrdersData.fetchDataRejected err m in
   MaintenanceOrdersData.error m'
     = Some (rejectionMessage "Failed to fetch maintenance orders" err) /\
   MaintenanceOrdersData.maintenanceOrders m' = [] /\
   MaintenanceOrdersData.totalCount m' = 0 /\
   MaintenanceOrdersData.totalPages m' = 0 /\
   MaintenanceOrdersData.hasNextPage m' = false /\
   MaintenanceOrdersData.hasPreviousPage m' = false /\
   MaintenanceOrdersData.maintenanceOrderSummary m' = None /\
   MaintenanceOrdersData.loading m' = false) /\
  (let d' := DriversData.fetchDataRejected err d in
   DriversData.error d' = Some (rejectionMessage "Failed to fetch drivers" err) /\
   DriversData.drivers d' = [] /\
   DriversData.totalCount d' = 0 /\
   DriversData.totalPages d' = 0 /\
   DriversData.hasNextPage d' = false /\
   DriversData.hasPreviousPage d' = false /\
   DriversData.loading d' = false).
Proof.
  split; [|split].
  - destruct s, err; cbn; repeat split; reflexivity.
  - destruct m, err; cbn; repeat split; reflexivity.
  - destruct d, err; cbn; repeat split; reflexivity.
Qed.

(** ** Dashboard summary *)

(** C9. With no vehicles and no backend summary, the dashboard shows 0
    vehicles, 0 active vehicles, 0 for every status, a total maintenance
    cost of 0, and no highest- or lowest-cost vehicle. *)
Theorem C9_empty_dashboard_is_all_zero {Driver : Type} (ds : list Driver) :
  let v := Dashboard.dashboard
             {| Dashboard.vehicles := []; Dashboard.drivers := ds;
                Dashboard.summary := None |} in
  Dashboard.shownTotalVehicles v = 0 /\
  Dashboard.shownActiveVehicles v = 0 /\
  Dashboard.shownStatusCounts v
    = {| Dashboard.active := 0; Dashboard.maintenance := 0; Dashboard.idle := 0 |} /\
  Dashboard.shownTotalMaintenanceCost v = 0 /\
  Dashboard.shownHighestCostVehicle v = None /\
  Dashboard.shownLowestCostVehicle v = None.
Proof.
  cbn. repeat split; reflexivity.
Qed.

(** ** Debounced search *)

Section Debounce.
Import VehicleSchedulesData.
Context {VS VSS : Type}.
Implicit Types (w : World VS VSS) (s : State VS VSS).

Lemma sentOnlyFor_none terms w w' : issued w' = issued w -> sentOnlyFor terms w w'.
Proof. intros E. exists []. split; [rewrite E; symmetry; apply app_nil_r | constructor]. Qed.

Lemma sentOnlyFor_trans terms w1 w2 w3 :
  sentOnlyFor terms w1 w2 -> sentOnlyFor terms w2 w3 -> sentOnlyFor terms w1 w3.
Proof.
  intros (n1 & E1 & F1) (n2 & E2 & F2). exists (n1 ++ n2). split.
  - rewrite E2, E1. symmetry. apply app_assoc.
  - apply Forall_app. split; assumption.
Qed.

Lemma sentOnlyFor_weaken terms terms' w w' :
  terms ⊆ terms' -> sentOnlyFor terms w w' -> sentOnlyFor terms' w w'.
Proof.
  intros Hsub (new & E & F). exists new. split; [exact E|].
  eapply Forall_impl; [exact F|]. intros q Hq. apply Hsub, Hq.
Qed.

(** What the effects after a render can do: start the timer, send at
    most one request, for the term committed in the new state. *)
Lemma afterRender_sent old new w :
  sentOnlyFor [orUndefined (debouncedSearchTerm new)] w (afterRender old new w).
Proof.
  unfold afterRender.
  assert (Hd : debouncedSearchTerm (debounceEffect old new) = debouncedSearchTerm new).
  { unfold debounceEffect. destruct (bool_decide _); [reflexivity|]. destruct new; reflexivity. }
  destruct (fetchDepsChanged old new).
  - exists [queryParams (debounceEffect old new)]. split; [reflexivity|].
    constructor; [|constructor]. cbn. rewrite Hd. apply list_elem_of_singleton. reflexivity.
  - apply sentOnlyFor_none. reflexivity.
Qed.

Lemma afterRender_hook old new w :
  searchTerm (hook (afterRender old new w)) = searchTerm new /\
  debouncedSearchTerm (hook (afterRender old new w)) = debouncedSearchTerm new /\
  currentPage (hook (afterRender old new w)) = currentPage new /\
  searchTimeout (hook (afterRender old new w)) =
    if bool_decide (searchTerm old = searchTerm new) then searchTimeout new
    else Some {| remaining := DEBOUNCE_MS; captured := searchTerm new |}.
Proof.
  unfold afterRender, debounceEffect.
  destruct (fetchDepsChanged old _), (bool_decide (searchTerm old = searchTerm new));
    destruct new; cbn; repeat split; reflexivity.
Qed.

(** A call of [setSearchTerm] with a new text. *)
Lemma type_new_text w term :
  term ≠ searchTerm (hook w) ->
  let w' := step w (Call (SetSearchTerm term)) in
  searchTerm (hook w') = term /\
  debouncedSearchTerm (hook w') = debouncedSearchTerm (hook w) /\
  currentPage (hook w') = 1 /\
  searchTimeout (hook w') = Some {| remaining := DEBOUNCE_MS; captured := term |} /\
  sentOnlyFor [orUndefined (debouncedSearchTerm (hook w))] w w'.
Proof.
  intros Hnew w'. subst w'. cbn [step act].
  pose proof (afterRender_hook (hook w) (setSearchTerm term (hook w)) w) as (H1 & H2 & H3 & H4).
  pose proof (afterRender_sent (hook w) (setSearchTerm term (hook w)) w) as H5.
  assert (Hst : searchTerm (setSearchTerm term (hook w)) = term) by (destruct (hook w); reflexivity).
  assert (Hds : debouncedSearchTerm (setSearchTerm term (hook w)) = debouncedSearchTerm (hook w))
    by (destruct (hook w); reflexivity).
  assert (Hcp : currentPage (setSearchTerm term (hook w)) = 1) by (destruct (hook w); reflexivity).
  rewrite Hst in H1, H4. rewrite Hds in H2, H5. rewrite Hcp in H3.
  rewrite bool_decide_eq_false_2 in H4 by congruence.
  repeat split; assumption.
Qed.

(** A pause shorter than the time left on the timer. *)
Lemma pause_before_timeout w ms t :
  searchTimeout (hook w) = Some t -> ms < remaining t ->
  let w' := step w (Elapse ms) in
  searchTerm (hook w') = searchTerm (hook w) /\
  debouncedSearchTerm (hook w') = debouncedSearchTerm (hook w) /\
  issued w' = issued w /\
  searchTimeout (hook w') = Some {| remaining := remaining t - ms; captured := captured t |}.
Proof.
  intros Ht Hms w'. subst w'. cbn [step]. rewrite Ht.
  destruct (Z.leb_spec (remaining t) ms) as [Hle|_]; [lia|].
  destruct (hook w); cbn. repeat split; reflexivity.
Qed.

(** A pause that reaches the timeout: the captured text is committed. *)
Lemma pause_reaches_timeout w ms t :
  searchTimeout (hook w) = Some t -> remaining t <= ms ->
  let w' := step w (Elapse ms) in
  debouncedSearchTerm (hook w') = captured t /\
  sentOnlyFor [orUndefined (captured t)] w w'.
Proof.
  intros Ht Hms w'. subst w'. cbn [step]. rewrite Ht.
  destruct (Z.leb_spec (remaining t) ms) as [_|Hgt]; [|lia].
  set (new := setDebouncedSearchTerm (captured t) (setSearchTimeout None (hook w))).
  pose proof (afterRender_hook (hook w) new w) as (_ & H2 & _).
  pose proof (afterRender_sent (hook w) new w) as H5.
  assert (Hds : debouncedSearchTerm new = captured t) by (subst new; destruct (hook w); reflexivity).
  rewrite Hds in H2, H5. split; assumption.
Qed.

(** During a burst of changes with pauses under 300 ms nothing is
    committed, and no request is sent but for the term committed before. *)
Lemma typing_commits_nothing (burst : list (string * Z)) : forall w,
  eachChanges (searchTerm (hook w)) (burst.*1) ->
  Forall (fun tp => 0 <= tp.2 < DEBOUNCE_MS) burst ->
  let w' := run w (typing burst) in
  searchTerm (hook w') = lastText (searchTerm (hook w)) (burst.*1) /\
  debouncedSearchTerm (hook w') = debouncedSearchTerm (hook w) /\
  sentOnlyFor [orUndefined (debouncedSearchTerm (hook w))] w w'.
Proof.
  induction burst as [|[term pause] rest IH]; intros w Hch Hp.
  - cbn. repeat split; try reflexivity. apply sentOnlyFor_none. reflexivity.
  - cbn [fmap list_fmap fst] in Hch. destruct Hch as [Hnew Hrest].
    apply Forall_cons in Hp. destruct Hp as [Hpause Hps]. cbn [snd] in Hpause.
    destruct (type_new_text w term Hnew) as (A1 & A2 & _ & A4 & A5).
    set (wa := step w (Call (SetSearchTerm term))) in *.
    destruct (pause_before_timeout wa pause _ A4) as (B1 & B2 & B3 & _); [cbn; lia|].
    set (wb := step wa (Elapse pause)) in *.
    specialize (IH wb). rewrite B1, A1 in IH. specialize (IH Hrest Hps).
    destruct IH as (C1 & C2 & C3).
    change (run w (typing ((term, pause) :: rest))) with (run wb (typing rest)).
    rewrite B2, A2 in C2, C3.
    split; [|split].
    + rewrite C1. reflexivity.
    + exact C2.
    + apply (sentOnlyFor_trans _ w wa _ A5).
      refine (sentOnlyFor_trans _ wa wb _ _ C3).
      apply sentOnlyFor_none, B3.
Qed.

Lemma queryParams_debounceEffect (old new : State VS VSS) :
  queryParams (debounceEffect old new) = queryParams new.
Proof.
  unfold debounceEffect. destruct (bool_decide _); [reflexivity|]. destruct new; reflexivity.
Qed.

(** The requests sent by the effects after a render. *)
Lemma afterRender_issued (old new : State VS VSS) w :
  issued (afterRender old new w)
  = issued w ++ (if fetchDepsChanged old new then [queryParams new] else []).
Proof.
  unfold afterRender. destruct (fetchDepsChanged old new); cbn.
  - rewrite queryParams_debounceEffect. reflexivity.
  - symmetry. apply app_nil_r.
Qed.

Lemma queryParams_afterRender (old new : State VS VSS) w :
  queryParams (hook (afterRender old new w)) = queryParams new.
Proof.
  unfold afterRender, debounceEffect.
  destruct (fetchDepsChanged old new), (bool_decide (searchTerm old = searchTerm new));
    destruct new; reflexivity.
Qed.

Lemma bool_decide_refl {A : Type} `{EqDecision A} (x : A) : bool_decide (x = x) = true.
Proof. apply bool_decide_eq_true_2. reflexivity. Qed.

(** [setSearchTerm] changes one dependency of [fetchData] at most: the
    page. *)
Lemma fetchDepsChanged_setSearchTerm s term :
  fetchDepsChanged s (setSearchTerm term s) = negb (bool_decide (currentPage s = 1)).
Proof.
  destruct s; unfold fetchDepsChanged; cbn. rewrite !bool_decide_refl.
  rewrite andb_true_r. reflexivity.
Qed.

(** The commit of the timer changes one dependency at most: the committed
    term. *)
Lemma fetchDepsChanged_commit s term :
  fetchDepsChanged s (setDebouncedSearchTerm term (setSearchTimeout None s))
  = negb (bool_decide (debouncedSearchTerm s = term)).
Proof.
  destruct s; unfold fetchDepsChanged; cbn. rewrite !bool_decide_refl.
  rewrite !andb_true_r. reflexivity.
Qed.

Lemma withPage_current s : currentPage s = 1 -> withPage 1 (queryParams s) = queryParams s.
Proof. destruct s; cbn. intros ->. reflexivity. Qed.

(** A call of [setSearchTerm] sends the request of the page reset, at
    once, and nothing else. *)
Lemma type_sends_page_reset w term :
  let w' := step w (Call (SetSearchTerm term)) in
  issued w' = issued w ++ pageResetRequest (hook w) /\
  pageResetRequest (hook w') = [] /\
  withPage 1 (queryParams (hook w')) = withPage 1 (queryParams (hook w)).
Proof.
  cbn [step act]. rewrite afterRender_issued, queryParams_afterRender.
  pose proof (afterRender_hook (hook w) (setSearchTerm term (hook w)) w) as (_ & _ & H3 & _).
  unfold pageResetRequest. rewrite H3, fetchDepsChanged_setSearchTerm.
  assert (Hcp : currentPage (setSearchTerm term (hook w)) = 1)
    by (destruct (hook w); reflexivity).
  assert (Hq : queryParams (setSearchTerm term (hook w)) = withPage 1 (queryParams (hook w)))
    by (destruct (hook w); reflexivity).
  rewrite Hcp, Hq, bool_decide_refl.
  split; [|split; [reflexivity|]].
  - destruct (bool_decide (currentPage (hook w) = 1)); reflexivity.
  - destruct (hook w); reflexivity.
Qed.

(** A pause that does not reach the timeout leaves the query alone. *)
Lemma pause_keeps_query w ms t :
  searchTimeout (hook w) = Some t -> ms < remaining t ->
  let w' := step w (Elapse ms) in
  issued w' = issued w /\
  queryParams (hook w') = queryParams (hook w) /\
  currentPage (hook w') = currentPage (hook w).
Proof.
  intros Ht Hms w'. subst w'. cbn [step]. rewrite Ht.
  destruct (Z.leb_spec (remaining t) ms) as [Hle|_]; [lia|].
  destruct (hook w); cbn. repeat split; reflexivity.
Qed.

(** The requests of a whole burst are the one of the first page reset. *)
Lemma typing_sends_page_reset (burst : list (string * Z)) : forall w,
  eachChanges (searchTerm (hook w)) (burst.*1) ->
  Forall (fun tp => 0 <= tp.2 < DEBOUNCE_MS) burst ->
  let w' := run w (typing burst) in
  issued w' ++ pageResetRequest (hook w') = issued w ++ pageResetRequest (hook w) /\
  withPage 1 (queryParams (hook w')) = withPage 1 (queryParams (hook w)).
Proof.
  induction burst as [|[term pause] rest IH]; intros w Hch Hp.
  - cbn. split; reflexivity.
  - cbn [fmap list_fmap fst] in Hch. destruct Hch as [Hnew Hrest].
    apply Forall_cons in Hp. destruct Hp as [Hpause Hps]. cbn [snd] in Hpause.
    destruct (type_new_text w term Hnew) as (A1 & _ & _ & A4 & _).
    destruct (type_sends_page_reset w term) as (E1 & E2 & E3).
    set (wa := step w (Call (SetSearchTerm term))) in *.
    destruct (pause_before_timeout wa pause _ A4) as (B1 & _); [cbn; lia|].
    destruct (pause_keeps_query wa pause _ A4) as (P1 & P2 & P3); [cbn; lia|].
    set (wb := step wa (Elapse pause)) in *.
    specialize (IH wb). rewrite B1, A1 in IH. specialize (IH Hrest Hps).
    destruct IH as (C1 & C2).
    change (run w (typing ((term, pause) :: rest))) with (run wb (typing rest)).
    split.
    + rewrite C1. unfold pageResetRequest at 1. rewrite P2, P3, P1.
      fold (pageResetRequest (hook wa)). rewrite E2, app_nil_r. exact E1.
    + rewrite C2, P2. exact E3.
Qed.

(** [setSearchTerm] resets the page in the same batch that stores the
    text. *)
Lemma setSearchTerm_resets_page_at_once w term :
  currentPage (hook (step w (Call (SetSearchTerm term)))) = 1.
Proof.
  cbn [step act].
  pose proof (afterRender_hook (hook w) (setSearchTerm term (hook w)) w) as (_ & _ & H3 & _).
  rewrite H3. destruct (hook w); reflexivity.
Qed.

(** C5 (as the code has it). For a burst of changes of the search text
    with pauses under 300 ms, followed by a last change and 300 ms of
    quiet: nothing is committed while the burst lasts, the last text is
    committed when the quiet period ends, and every request sent on the way
    carries the term committed before the burst or the last text, never an
    intermediate one.  The page is not part of the debounce: it is 1 as
    soon as the last text is typed (every [setSearchTerm] resets it at
    once), and when the page was not 1 that reset sends a request at once,
    for page 1 and with the term committed before.  The requests of the
    whole sequence are exactly that one (if any) and, when the last text
    differs from the term committed before, the request that commits
    it. *)
Theorem C5_debounce_commits_last_text_only w (burst : list (string * Z)) (final : string) :
  eachChanges (searchTerm (hook w)) (burst.*1 ++ [final]) ->
  Forall (fun tp => 0 <= tp.2 < DEBOUNCE_MS) burst ->
  let typed := run w (typing burst ++ [Call (SetSearchTerm final)]) in
  let quiet := step typed (Elapse DEBOUNCE_MS) in
  debouncedSearchTerm (hook typed) = debouncedSearchTerm (hook w) /\
  currentPage (hook typed) = 1 /\
  debouncedSearchTerm (hook quiet) = final /\
  sentOnlyFor [orUndefined (debouncedSearchTerm (hook w)); orUndefined final] w quiet /\
  DEBOUNCE_MS = 300 /\
  issued typed = issued w ++ pageResetRequest (hook w) /\
  issued quiet = issued w ++ pageResetRequest (hook w) ++ commitRequest final (hook w).
Proof.
  intros Hch Hp typed quiet.
  assert (Hsplit : eachChanges (searchTerm (hook w)) (burst.*1) /\
                   final ≠ lastText (searchTerm (hook w)) (burst.*1)).
  { clear Hp typed quiet. generalize (searchTerm (hook w)) Hch. clear Hch.
    induction (burst.*1) as [|t ts IH]; intros prev Hch; cbn in *.
    - tauto.
    - destruct Hch as [Hne Hrest]. destruct (IH t Hrest). tauto. }
  destruct Hsplit as [Hburst Hfinal].
  destruct (typing_commits_nothing burst w Hburst Hp) as (T1 & T2 & T3).
  destruct (typing_sends_page_reset burst w Hburst Hp) as (X1 & X2).
  set (w1 := run w (typing burst)) in *.
  assert (Htyped : typed = step w1 (Call (SetSearchTerm final))).
  { subst typed w1. unfold run. rewrite foldl_app. reflexivity. }
  rewrite <- T1 in Hfinal.
  destruct (type_new_text w1 final Hfinal) as (A1 & A2 & A3 & A4 & A5).
  destruct (type_sends_page_reset w1 final) as (E1 & _ & E3).
  rewrite <- Htyped in A1, A2, A3, A4, A5, E1, E3.
  destruct (pause_reaches_timeout typed DEBOUNCE_MS _ A4) as (Q1 & Q2); [cbn; lia|].
  fold quiet in Q1, Q2. cbn [captured] in Q1, Q2.
  rewrite T2 in A2, A5.
  assert (Hlog : issued typed = issued w ++ pageResetRequest (hook w))
    by (rewrite E1; exact X1).
  split; [exact A2|]. split; [exact A3|]. split; [exact Q1|]. split; [|split; [reflexivity|]].
  - apply (sentOnlyFor_trans _ w w1).
    { eapply sentOnlyFor_weaken; [|exact T3]. intros x Hx. apply list_elem_of_singleton in Hx.
      subst x. left. }
    apply (sentOnlyFor_trans _ w1 typed).
    { eapply sentOnlyFor_weaken; [|exact A5]. intros x Hx. apply list_elem_of_singleton in Hx.
      subst x. left. }
    eapply sentOnlyFor_weaken; [|exact Q2]. intros x Hx. apply list_elem_of_singleton in Hx.
    subst x. right. left.
  - split; [exact Hlog|].
    subst quiet. cbn [step]. rewrite A4. cbn [remaining captured].
    change (DEBOUNCE_MS <=? DEBOUNCE_MS) with true. cbv iota.
    rewrite afterRender_issued, fetchDepsChanged_commit, Hlog, <- app_assoc, A2.
    do 2 f_equal. unfold commitRequest.
    destruct (bool_decide (debouncedSearchTerm (hook w) = final)); [reflexivity|].
    cbn [negb]. f_equal.
    assert (Q : forall s0 : State VS VSS,
              queryParams (setDebouncedSearchTerm final (setSearchTimeout None s0))
              = withSearch (orUndefined final) (queryParams s0))
      by (intros s0; destruct s0; reflexivity).
    rewrite Q, <- (withPage_current (hook typed) A3), E3, X2. reflexivity.
Qed.

End Debounce.

Lemma C5_debounce_commits_last_text_only_witness :
  let w := onPage2 in
  let burst := [("v", 60); ("va", 70); ("vax", 70)] in
  let typed := VehicleSchedulesData.run w
                 (VehicleSchedulesData.typing burst
                  ++ [VehicleSchedulesData.Call (VehicleSchedulesData.SetSearchTerm "van")]) in
  let quiet := VehicleSchedulesData.step typed (VehicleSchedulesData.Elapse DEBOUNCE_MS) in
  VehicleSchedulesData.debouncedSearchTerm (VehicleSchedulesData.hook typed)
    = VehicleSchedulesData.debouncedSearchTerm (VehicleSchedulesData.hook w) /\
  VehicleSchedulesData.currentPage (VehicleSchedulesData.hook typed) = 1 /\
  VehicleSchedulesData.debouncedSearchTerm (VehicleSchedulesData.hook quiet) = "van" /\
  VehicleSchedulesData.sentOnlyFor
    [orUndefined (VehicleSchedulesData.debouncedSearchTerm (VehicleSchedulesData.hook w));
     orUndefined "van"] w quiet /\
  DEBOUNCE_MS = 300 /\
  VehicleSchedulesData.issued typed
    = VehicleSchedulesData.issued w
      ++ VehicleSchedulesData.pageResetRequest (VehicleSchedulesData.hook w) /\
  VehicleSchedulesData.issued quiet
    = VehicleSchedulesData.issued w
      ++ VehicleSchedulesData.pageResetRequest (VehicleSchedulesData.hook w)
      ++ VehicleSchedulesData.commitRequest "van" (VehicleSchedulesData.hook w).
Proof.
  apply (C5_debounce_commits_last_text_only onPage2
           [("v", 60); ("va", 70); ("vax", 70)] "van").
  - cbn. repeat split; discriminate.
  - repeat constructor; cbn; unfold DEBOUNCE_MS; lia.
Defined.

(** The requests of that sequence, spelled out: one for page 1 at the
    first keystroke, still without a search term, and one for "van" when
    the timer fires; none for "v", "va" or "vax". *)
Example requests_of_a_burst_on_page_2 :
  let quiet :=
    VehicleSchedulesData.run onPage2
      (VehicleSchedulesData.typing [("v", 60); ("va", 70); ("vax", 70)]
       ++ [VehicleSchedulesData.Call (VehicleSchedulesData.SetSearchTerm "van");
           VehicleSchedulesData.Elapse 300]) in
  map (fun q => (VehicleSchedulesData.qSearch q, VehicleSchedulesData.qPage q))
      (VehicleSchedulesData.issued quiet)
  = [(None, 1); (None, 2); (None, 1); (Some "van", 1)].
Proof. vm_compute. reflexivity. Qed.

(** The scenario of the specification: "abc" typed over 200 ms and cleared
    before 300 ms have gone by sends no request at all. *)
Example scenario_typed_then_cleared :
  let quiet :=
    VehicleSchedulesData.run atRest
      (VehicleSchedulesData.typing [("a", 60); ("ab", 70); ("abc", 70)]
       ++ [VehicleSchedulesData.Call (VehicleSchedulesData.SetSearchTerm "");
           VehicleSchedulesData.Elapse 300]) in
  VehicleSchedulesData.issued quiet = VehicleSchedulesData.issued atRest.
Proof. vm_compute. reflexivity. Qed.

(** C5, as stated, fails on the page: on page 2, typing "abc" puts the
    page back to 1 and sends a request for page 1 at once, while the timer
    still has its full 300 ms to run and "abc" is not committed. *)
Lemma C5_counterexample :
  VehicleSchedulesData.currentPage (VehicleSchedulesData.hook onPage2) = 2 /\
  let w' := VehicleSchedulesData.step onPage2
              (VehicleSchedulesData.Call (VehicleSchedulesData.SetSearchTerm "abc")) in
  VehicleSchedulesData.currentPage (VehicleSchedulesData.hook w') = 1 /\
  VehicleSchedulesData.searchTimeout (VehicleSchedulesData.hook w')
    = Some {| remaining := 300; captured := "abc" |} /\
  VehicleSchedulesData.debouncedSearchTerm (VehicleSchedulesData.hook w') = "" /\
  VehicleSchedulesData.issued w'
    = VehicleSchedulesData.issued onPage2
      ++ [{| VehicleSchedulesData.qSearch := None;
             VehicleSchedulesData.qStatus := Some ["active"; "scheduled"];
             VehicleSchedulesData.qSortBy := Some VehicleSchedulesData.startDate;
             VehicleSchedulesData.qSortOrder := desc;
             VehicleSchedulesData.qPage := 1;
             VehicleSchedulesData.qLimit := 6 |}].
Proof. vm_compute. repeat split. Qed.

(** ** Responses *)

(** C8 (as the code has it). None of the three list hooks keeps a link
    between a response and the query state: when any request in flight is
    answered, the answer is applied as it is, whether its parameters [q]
    are those of the latest query state or not, and the query state is
    left as it was.  So the items shown are those of the answer that
    arrived last. *)
Theorem C8_every_response_is_applied {VS VSS MO MOS D : Type}
    (w : VehicleSchedulesData.World VS VSS) (wm : MaintenanceOrdersData.World MO MOS)
    (wd : DriversData.World D) (i : nat)
    (response : VehicleSchedulesData.Response VS) (summaryResponse : VSS)
    (responseM : MaintenanceOrdersData.Response MO) (summaryResponseM : MOS)
    (responseD : DriversData.Response D) :
  (forall q, VehicleSchedulesData.inflight w !! i = Some q ->
   let w' := VehicleSchedulesData.step w
               (VehicleSchedulesData.Settle i
                  (VehicleSchedulesData.Fulfilled response summaryResponse)) in
   let s' := VehicleSchedulesData.hook w' in
   VehicleSchedulesData.vehicleSchedules s' = VehicleSchedulesData.rVehicleSchedules response /\
   VehicleSchedulesData.totalCount s' = VehicleSchedulesData.rTotalCount response /\
   VehicleSchedulesData.totalPages s' = VehicleSchedulesData.rTotalPages response /\
   VehicleSchedulesData.hasNextPage s' = VehicleSchedulesData.rHasNextPage response /\
   VehicleSchedulesData.hasPreviousPage s' = VehicleSchedulesData.rHasPreviousPage response /\
   VehicleSchedulesData.vehicleScheduleSummary s' = Some summaryResponse /\
   VehicleSchedulesData.queryParams s'
     = VehicleSchedulesData.queryParams (VehicleSchedulesData.hook w) /\
   VehicleSchedulesData.inflight w' = delete i (VehicleSchedulesData.inflight w)) /\
  (forall q, MaintenanceOrdersData.inflight wm !! i = Some q ->
   let w' := MaintenanceOrdersData.settle i
               (MaintenanceOrdersData.Fulfilled responseM summaryResponseM) wm in
   let s' := MaintenanceOrdersData.hook w' in
   MaintenanceOrdersData.maintenanceOrders s'
     = MaintenanceOrdersData.rMaintenanceOrders responseM /\
   MaintenanceOrdersData.totalCount s' = MaintenanceOrdersData.rTotalCount responseM /\
   MaintenanceOrdersData.totalPages s' = MaintenanceOrdersData.rTotalPages responseM /\
   MaintenanceOrdersData.hasNextPage s' = MaintenanceOrdersData.rHasNextPage responseM /\
   MaintenanceOrdersData.hasPreviousPage s'
     = MaintenanceOrdersData.rHasPreviousPage responseM /\
   MaintenanceOrdersData.maintenanceOrderSummary s' = Some summaryResponseM /\
   MaintenanceOrdersData.queryParams s'
     = MaintenanceOrdersData.queryParams (MaintenanceOrdersData.hook wm) /\
   MaintenanceOrdersData.inflight w' = delete i (MaintenanceOrdersData.inflight wm)) /\
  (forall q, DriversData.inflight wd !! i = Some q ->
   let w' := DriversData.settle i (DriversData.Fulfilled responseD) wd in
   let s' := DriversData.hook w' in
   DriversData.drivers s' = DriversData.rDrivers responseD /\
   DriversData.totalCount s' = DriversData.rTotalCount responseD /\
   DriversData.totalPages s' = DriversData.rTotalPages responseD /\
   DriversData.hasNextPage s' = DriversData.rHasNextPage responseD /\
   DriversData.hasPreviousPage s' = DriversData.rHasPreviousPage responseD /\
   DriversData.queryParams s' = DriversData.queryParams (DriversData.hook wd) /\
   DriversData.inflight w' = delete i (DriversData.inflight wd)).
Proof.
  split; [|split].
  - intros q Hq. cbn [VehicleSchedulesData.step]. rewrite Hq. cbn.
    destruct (VehicleSchedulesData.hook w); cbn. repeat split; reflexivity.
  - intros q Hq. unfold MaintenanceOrdersData.settle. rewrite Hq. cbn.
    destruct (MaintenanceOrdersData.hook wm); cbn. repeat split; reflexivity.
  - intros q Hq. unfold DriversData.settle. rewrite Hq. cbn.
    destruct (DriversData.hook wd); cbn. repeat split; reflexivity.
Qed.

Lemma C8_every_response_is_applied_witness :
  (let s' := VehicleSchedulesData.hook
               (VehicleSchedulesData.step staleInFlight
                  (VehicleSchedulesData.Settle 0
                     (VehicleSchedulesData.Fulfilled allResponse 3))) in
   VehicleSchedulesData.vehicleSchedules s' = ["car-1"; "van-7"; "truck-2"] /\
   VehicleSchedulesData.queryParams s'
     = VehicleSchedulesData.queryParams (VehicleSchedulesData.hook staleInFlight)) /\
  (let s' := MaintenanceOrdersData.hook
               (MaintenanceOrdersData.settle 0
                  (MaintenanceOrdersData.Fulfilled ordersResponse 2)
                  MaintenanceOrdersData.mount) in
   MaintenanceOrdersData.maintenanceOrders s' = ["mo-1"; "mo-2"] /\
   MaintenanceOrdersData.queryParams s'
     = MaintenanceOrdersData.queryParams
         (MaintenanceOrdersData.hook (@MaintenanceOrdersData.mount string Z))) /\
  (let s' := DriversData.hook
               (DriversData.settle 0 (DriversData.Fulfilled driversResponse)
                  DriversData.mount) in
   DriversData.drivers s' = ["Ana"; "Luis"] /\
   DriversData.queryParams s'
     = DriversData.queryParams (DriversData.hook (@DriversData.mount string))).
Proof.
  destruct (C8_every_response_is_applied staleInFlight
              (@MaintenanceOrdersData.mount string Z) (@DriversData.mount string) 0
              allResponse 3 ordersResponse 2 driversResponse) as (HS & HM & HD).
  split; [|split].
  - destruct (HS _ eq_refl) as (H1 & _ & _ & _ & _ & _ & H7 & _). split; [exact H1 | exact H7].
  - destruct (HM _ eq_refl) as (H1 & _ & _ & _ & _ & _ & H7 & _). split; [exact H1 | exact H7].
  - destruct (HD _ eq_refl) as (H1 & _ & _ & _ & _ & H6 & _). split; [exact H1 | exact H6].
Defined.

(** C8, as stated, fails: the request sent at mount (no search term) is
    still in flight when the search for "van" has been sent and answered;
    its parameters are not those of the latest query state, and yet its
    late answer replaces the items of the "van" search. *)
Lemma C8_counterexample :
  let mountRequest :=
    {| VehicleSchedulesData.qSearch := None;
       VehicleSchedulesData.qStatus := Some ["active"; "scheduled"];
       VehicleSchedulesData.qSortBy := Some VehicleSchedulesData.startDate;
       VehicleSchedulesData.qSortOrder := desc;
       VehicleSchedulesData.qPage := 1;
       VehicleSchedulesData.qLimit := 6 |} in
  let late := VehicleSchedulesData.step staleInFlight
                (VehicleSchedulesData.Settle 0
                   (VehicleSchedulesData.Fulfilled allResponse 3)) in
  VehicleSchedulesData.inflight staleInFlight = [mountRequest] /\
  VehicleSchedulesData.qSearch
    (VehicleSchedulesData.queryParams (VehicleSchedulesData.hook staleInFlight))
    = Some "van" /\
  mountRequest ≠ VehicleSchedulesData.queryParams (VehicleSchedulesData.hook staleInFlight) /\
  VehicleSchedulesData.vehicleSchedules (VehicleSchedulesData.hook staleInFlight) = ["van-7"] /\
  VehicleSchedulesData.vehicleSchedules (VehicleSchedulesData.hook late)
    = ["car-1"; "van-7"; "truck-2"] /\
  VehicleSchedulesData.debouncedSearchTerm (VehicleSchedulesData.hook late) = "van".
Proof.
  vm_compute. repeat split. discriminate.
Qed.

(** The same late answer in the other two hooks: the request sent at
    mount is answered after the user has gone to page 2 and the answer for
    page 2 has arrived; the rows shown are then those of the mount request
    while the page of the query state is 2. *)
Example late_answer_in_orders_and_drivers :
  (let page2 := {| MaintenanceOrdersData.rMaintenanceOrders := ["mo-11"];
                   MaintenanceOrdersData.rTotalCount := 11;
                   MaintenanceOrdersData.rTotalPages := 2;
                   MaintenanceOrdersData.rHasNextPage := false;
                   MaintenanceOrdersData.rHasPreviousPage := true |} in
   let answered := MaintenanceOrdersData.settle 1
                     (MaintenanceOrdersData.Fulfilled page2 2)
                     (MaintenanceOrdersData.goToPage 2 MaintenanceOrdersData.mount) in
   let late := MaintenanceOrdersData.settle 0
                 (MaintenanceOrdersData.Fulfilled ordersResponse 2) answered in
   map MaintenanceOrdersData.qPage (MaintenanceOrdersData.inflight answered) = [1] /\
   MaintenanceOrdersData.maintenanceOrders (MaintenanceOrdersData.hook answered) = ["mo-11"] /\
   MaintenanceOrdersData.maintenanceOrders (MaintenanceOrdersData.hook late)
     = ["mo-1"; "mo-2"] /\
   MaintenanceOrdersData.currentPage (MaintenanceOrdersData.hook late) = 2) /\
  (let page2 := {| DriversData.rDrivers := ["Zoe"];
                   DriversData.rTotalCount := 11;
                   DriversData.rTotalPages := 2;
                   DriversData.rHasNextPage := false;
                   DriversData.rHasPreviousPage := true |} in
   let answered := DriversData.settle 1 (DriversData.Fulfilled page2)
                     (DriversData.goToPage 2 DriversData.mount) in
   let late := DriversData.settle 0 (DriversData.Fulfilled driversResponse) answered in
   map DriversData.qPage (DriversData.inflight answered) = [1] /\
   DriversData.drivers (DriversData.hook answered) = ["Zoe"] /\
   DriversData.drivers (DriversData.hook late) = ["Ana"; "Luis"] /\
   DriversData.currentPage (DriversData.hook late) = 2).
Proof. vm_compute. repeat split. Qed.

(** * Further properties *)

(** ** Page numbers *)

Lemma elem_of_pagesFromTo (first last p : Z) :
  p ∈ Tables.pagesFromTo first last <-> first <= p <= last.
Proof. unfold Tables.pagesFromTo. rewrite elem_of_seqZ. lia. Qed.

(** X1. The page numbers offered by [getPageNumbers] are at most five,
    and each of them is a page that exists: between 1 and [totalPages]. *)
Theorem X1_page_numbers_exist (totalPages currentPage : Z) :
  (length (Tables.getPageNumbers totalPages currentPage) <= 5)%nat /\
  forall p, p ∈ Tables.getPageNumbers totalPages currentPage -> 1 <= p <= totalPages.
Proof.
  unfold Tables.getPageNumbers. cbv zeta.
  destruct (Z.leb_spec totalPages 5) as [Hsmall|Hlarge].
  - split.
    + unfold Tables.pagesFromTo. rewrite length_seqZ. lia.
    + intros p Hp. apply elem_of_pagesFromTo in Hp. lia.
  - split.
    + unfold Tables.pagesFromTo. rewrite length_seqZ. lia.
    + intros p Hp. apply elem_of_pagesFromTo in Hp. lia.
Qed.

(** X2. Whenever the current page exists, it is among the page numbers
    offered. *)
Theorem X2_page_numbers_hold_current_page (totalPages currentPage : Z) :
  1 <= currentPage <= totalPages ->
  currentPage ∈ Tables.getPageNumbers totalPages currentPage.
Proof.
  intros Hcur. unfold Tables.getPageNumbers. cbv zeta.
  destruct (Z.leb_spec totalPages 5) as [Hsmall|Hlarge];
    apply elem_of_pagesFromTo.
  - lia.
  - change (5 / 2) with 2. lia.
Qed.

Lemma X2_page_numbers_hold_current_page_witness :
  10 ∈ Tables.getPageNumbers 10 10.
Proof.
  apply (X2_page_numbers_hold_current_page 10 10). lia.
Defined.

(** Near the last page the window is not re-centred: fewer than five
    numbers are offered. *)
Example page_numbers_near_the_end :
  Tables.getPageNumbers 10 10 = [8; 9; 10] /\
  Tables.getPageNumbers 10 5 = [3; 4; 5; 6; 7].
Proof. split; reflexivity. Qed.

(** X3. On a page that holds at least one row, the header "Showing a-b
    of n" names a non-empty range of rows that exist, of at most
    [itemsPerPage] rows. *)
Theorem X3_showing_range_is_sound (currentPage itemsPerPage totalCount : Z) :
  1 <= currentPage -> 1 <= itemsPerPage ->
  (currentPage - 1) * itemsPerPage < totalCount ->
  let a := Tables.showingFrom currentPage itemsPerPage in
  let b := Tables.showingTo currentPage itemsPerPage totalCount in
  1 <= a /\ a <= b /\ b <= totalCount /\ b - a + 1 <= itemsPerPage.
Proof.
  intros Hp Hn Hrows. unfold Tables.showingFrom, Tables.showingTo. cbv zeta.
  destruct (Z.min_spec (currentPage * itemsPerPage) totalCount) as [[Hlt ->]|[Hge ->]]; nia.
Qed.

Lemma X3_showing_range_is_sound_witness :
  let a := Tables.showingFrom 3 10 in
  let b := Tables.showingTo 3 10 24 in
  1 <= a /\ a <= b /\ b <= 24 /\ b - a + 1 <= 10.
Proof.
  apply (X3_showing_range_is_sound 3 10 24); lia.
Defined.

(** X4. Paging through the driver table keeps the page of the drivers
    hook among the pages that exist, whatever page number is asked for. *)
Theorem X4_driver_table_keeps_page_in_range {Driver : Type}
    (s : DriversData.State Driver) (n : Z) :
  1 <= DriversData.currentPage s <= DriversData.totalPages s ->
  let s' := Tables.driverTablePageChange n s in
  1 <= DriversData.currentPage s' <= DriversData.totalPages s' /\
  (1 <= n <= DriversData.totalPages s -> DriversData.currentPage s' = n).
Proof.
  intros Hin. unfold Tables.driverTablePageChange, Tables.handlePageChange.
  destruct (Z.geb_spec n 1) as [Hge|Hlt]; cbn [andb].
  - destruct (Z.leb_spec n (DriversData.totalPages s)) as [Hle|Hgt].
    + destruct s; cbn in *. split; [lia | reflexivity].
    + cbv zeta. split; [exact Hin | lia].
  - cbv zeta. split; [exact Hin | lia].
Qed.

Lemma X4_driver_table_keeps_page_in_range_witness :
  let s := DriversData.setCurrentPage 2 driversThreePages in
  let s' := Tables.driverTablePageChange 9 s in
  1 <= DriversData.currentPage s' <= DriversData.totalPages s' /\
  (1 <= 9 <= DriversData.totalPages s -> DriversData.currentPage s' = 9).
Proof.
  apply (X4_driver_table_keeps_page_in_range
           (DriversData.setCurrentPage 2 driversThreePages) 9).
  vm_compute. split; discriminate.
Defined.

(** ** The schedules hook: actions and requests *)

Section ScheduleRequests.
Import VehicleSchedulesData.
Context {VS VSS : Type}.
Implicit Types (w : World VS VSS) (s : State VS VSS) (a : Action).

(** The data cells after the effects of a render are those of the new
    state. *)
Lemma afterRender_data (old new : State VS VSS) w :
  let s' := hook (afterRender old new w) in
  vehicleSchedules s' = vehicleSchedules new /\
  totalCount s' = totalCount new /\
  totalPages s' = totalPages new /\
  hasNextPage s' = hasNextPage new /\
  hasPreviousPage s' = hasPreviousPage new /\
  vehicleScheduleSummary s' = vehicleScheduleSummary new.
Proof.
  unfold afterRender, debounceEffect.
  destruct (fetchDepsChanged old new), (bool_decide (searchTerm old = searchTerm new));
    destruct new; cbn; repeat split; reflexivity.
Qed.

(** What an action leaves alone: the data cells, the timer and the
    committed search term. *)
Lemma act_keeps a s :
  vehicleSchedules (act a s) = vehicleSchedules s /\
  totalCount (act a s) = totalCount s /\
  totalPages (act a s) = totalPages s /\
  hasNextPage (act a s) = hasNextPage s /\
  hasPreviousPage (act a s) = hasPreviousPage s /\
  vehicleScheduleSummary (act a s) = vehicleScheduleSummary s /\
  searchTimeout (act a s) = searchTimeout s /\
  debouncedSearchTerm (act a s) = debouncedSearchTerm s.
Proof.
  destruct a, s; cbn; try (repeat split; reflexivity).
  unfold setSorting; cbn. destruct (bool_decide _); cbn; repeat split; reflexivity.
Qed.

(** X5. [toggleStatusFilter] flips the toggled status and no other: the
    status is among the filters afterwards exactly when it was not
    before, and every other status stays in or out as it was. *)
Theorem X5_toggle_flips_one_status s (v : string) :
  (v ∈ statusFilters (toggleStatusFilter v s) <-> v ∉ statusFilters s) /\
  forall x, x ≠ v ->
    (x ∈ statusFilters (toggleStatusFilter v s) <-> x ∈ statusFilters s).
Proof.
  destruct s as [? sf ? ? ? ? ? ? ? ? ? ? ? ? ? ? ?]; cbn. unfold toggled.
  destruct (decide (v ∈ sf)) as [Hin|Hout].
  - rewrite (bool_decide_eq_true_2 _ Hin). split.
    + rewrite list_elem_of_filter. tauto.
    + intros x Hx. rewrite list_elem_of_filter. tauto.
  - rewrite (bool_decide_eq_false_2 _ Hout). split.
    + rewrite elem_of_app, list_elem_of_singleton. tauto.
    + intros x Hx. rewrite elem_of_app, list_elem_of_singleton. tauto.
Qed.

Lemma toggled_NoDup (v : string) (l : list string) : NoDup l -> NoDup (toggled v l).
Proof.
  intros Hl. unfold toggled. destruct (decide (v ∈ l)) as [Hin|Hout].
  - rewrite (bool_decide_eq_true_2 _ Hin). apply NoDup_filter, Hl.
  - rewrite (bool_decide_eq_false_2 _ Hout). apply NoDup_app. split; [exact Hl|]. split.
    + intros x Hx Hxv. apply list_elem_of_singleton in Hxv. subst x. contradiction.
    + apply NoDup_singleton.
Qed.

(** X6. No action puts a status twice into the filter list: a list
    without duplicates stays without duplicates under every action. *)
Theorem X6_filters_stay_duplicate_free a s :
  NoDup (statusFilters s) -> NoDup (statusFilters (act a s)).
Proof.
  intros Hnd.
  assert (Hdefault : NoDup ["active"; "scheduled"]).
  { apply NoDup_cons. split.
    - rewrite list_elem_of_singleton. discriminate.
    - apply NoDup_singleton. }
  destruct a, s; cbn in *; try assumption.
  - apply toggled_NoDup, Hnd.
  - unfold setSorting; cbn. destruct (bool_decide _); cbn; assumption.
Qed.

Lemma act_resets_page a s :
  (forall n, a ≠ SetCurrentPage n) -> currentPage (act a s) = 1.
Proof.
  intros Hnot. destruct a, s; cbn; try reflexivity.
  - unfold setSorting; cbn. destruct (bool_decide _); reflexivity.
  - exfalso. eapply Hnot. reflexivity.
Qed.

(** X7. In the render that follows one call of an action other than
    [setCurrentPage], at most one request is sent, and that request is for
    page 1. (Requests sent later, when the debounce timer fires or by
    [refreshData], are other steps and are not counted here.) *)
Theorem X7_other_actions_request_page_1 w a :
  (forall n, a ≠ SetCurrentPage n) ->
  exists new,
    issued (step w (Call a)) = issued w ++ new /\
    (length new <= 1)%nat /\
    Forall (fun q => qPage q = 1) new.
Proof.
  intros Hnot. cbn [step]. rewrite afterRender_issued.
  destruct (fetchDepsChanged (hook w) (act a (hook w))).
  - eexists. split; [reflexivity|]. split; [cbn; lia|].
    constructor; [|constructor]. cbn. apply act_resets_page, Hnot.
  - exists []. split; [reflexivity|]. split; [cbn; lia | constructor].
Qed.

End ScheduleRequests.

Lemma X6_filters_stay_duplicate_free_witness :
  NoDup (VehicleSchedulesData.statusFilters
           (VehicleSchedulesData.act (VehicleSchedulesData.ToggleStatusFilter "completed")
              threePages)).
Proof.
  apply (X6_filters_stay_duplicate_free
           (VehicleSchedulesData.ToggleStatusFilter "completed") threePages).
  vm_compute. apply NoDup_cons. split.
  - rewrite list_elem_of_singleton. discriminate.
  - apply NoDup_singleton.
Defined.

Lemma X7_other_actions_request_page_1_witness :
  exists new,
    VehicleSchedulesData.issued
      (VehicleSchedulesData.step onPage2
         (VehicleSchedulesData.Call (VehicleSchedulesData.SetItemsPerPage 25)))
    = VehicleSchedulesData.issued onPage2 ++ new /\
    (length new <= 1)%nat /\
    Forall (fun q => VehicleSchedulesData.qPage q = 1) new.
Proof.
  apply (X7_other_actions_request_page_1 onPage2 (VehicleSchedulesData.SetItemsPerPage 25)).
  intros n. discriminate.
Defined.

(** ** The schedules hook in time *)

Section ScheduleTraces.
Import VehicleSchedulesData.
Context {VS VSS : Type}.
Implicit Types (w : World VS VSS) (s : State VS VSS) (a : Action).

Lemma fetchDepsChanged_fresh_filters (old new : State VS VSS) :
  statusFiltersId new = S (statusFiltersId old) -> fetchDepsChanged old new = true.
Proof.
  intros Hid. unfold fetchDepsChanged.
  rewrite (bool_decide_eq_false_2 (statusFiltersId old = statusFiltersId new)) by lia.
  rewrite andb_false_r. reflexivity.
Qed.

Lemma fetchDepsChanged_new_term (old new : State VS VSS) :
  debouncedSearchTerm old ≠ debouncedSearchTerm new -> fetchDepsChanged old new = true.
Proof.
  intros Hne. unfold fetchDepsChanged.
  rewrite (bool_decide_eq_false_2 _ Hne). reflexivity.
Qed.

(** X8. Toggling a status filter always sends exactly one request: for
    page 1, with the filters as toggled (or no status parameter when none
    is left) and with the search term committed so far. *)
Theorem X8_toggle_sends_one_request w (v : string) :
  let filters := toggled v (statusFilters (hook w)) in
  issued (step w (Call (ToggleStatusFilter v)))
  = issued w ++
    [{| qSearch := orUndefined (debouncedSearchTerm (hook w));
        qStatus := if 0 <? Z.of_nat (length filters) then Some filters else None;
        qSortBy := sortBy (hook w);
        qSortOrder := sortOrder (hook w);
        qPage := 1;
        qLimit := itemsPerPage (hook w) |}].
Proof.
  cbn [step act]. rewrite afterRender_issued.
  rewrite fetchDepsChanged_fresh_filters by (destruct (hook w); reflexivity).
  destruct (hook w); reflexivity.
Qed.

(** Each step keeps the timer in agreement with the search box. *)
Lemma step_timerAgrees w (e : Event VS VSS) :
  timerAgrees (hook w) -> timerAgrees (hook (step w e)).
Proof.
  intros Hinv. destruct e as [a| |ms|i o]; cbn [step].
  - pose proof (afterRender_hook (hook w) (act a (hook w)) w) as (H1 & H2 & _ & H4).
    pose proof (act_keeps a (hook w)) as (_ & _ & _ & _ & _ & _ & K1 & K2).
    unfold timerAgrees in *. rewrite H4, H1, H2, K1, K2.
    destruct (decide (searchTerm (hook w) = searchTerm (act a (hook w)))) as [Heq|Hne].
    + rewrite (bool_decide_eq_true_2 _ Heq). rewrite <- Heq. exact Hinv.
    + rewrite (bool_decide_eq_false_2 _ Hne). reflexivity.
  - unfold callFetchData, timerAgrees in *. cbn [hook].
    destruct (hook w); cbn in *. exact Hinv.
  - unfold timerAgrees in Hinv. destruct (searchTimeout (hook w)) as [t|] eqn:Ht.
    + destruct (remaining t <=? ms).
      * set (new := setDebouncedSearchTerm (captured t) (setSearchTimeout None (hook w))).
        pose proof (afterRender_hook (hook w) new w) as (H1 & H2 & _ & H4).
        assert (N1 : searchTerm new = searchTerm (hook w)) by (subst new; destruct (hook w); reflexivity).
        assert (N2 : debouncedSearchTerm new = captured t) by (subst new; destruct (hook w); reflexivity).
        assert (N3 : searchTimeout new = None) by (subst new; destruct (hook w); reflexivity).
        unfold timerAgrees. rewrite H4, H1, H2, N1, N2, N3.
        rewrite bool_decide_eq_true_2 by reflexivity. exact Hinv.
      * unfold timerAgrees. cbn [hook]. destruct (hook w); cbn in *. exact Hinv.
    + unfold timerAgrees. rewrite Ht. exact Hinv.
  - destruct (inflight w !! i); [|exact Hinv].
    unfold timerAgrees in *. cbn [hook]. destruct o, (hook w); cbn in *; exact Hinv.
Qed.

(** X9. Whatever happens after mounting (actions, refreshes, time going
    by, responses), a pending debounce timer always holds the text of the
    search box, and when no timer is pending that text is the committed
    search term. *)
Theorem X9_timer_agrees_with_search_box (es : list (Event VS VSS)) :
  timerAgrees (hook (run mount es)).
Proof.
  unfold run.
  assert (Hgen : forall w, timerAgrees (hook w) -> timerAgrees (hook (foldl step w es))).
  { induction es as [|e es IH]; intros w Hw; cbn [foldl].
    - exact Hw.
    - apply IH, step_timerAgrees, Hw. }
  apply Hgen. reflexivity.
Qed.

(** X10. [clearAllFilters] is not one request: with a search term typed
    and committed, it sends a request at once that still carries that term
    (with the default filters, sort and page), and a second one without
    the term when the debounce timer fires 300 ms later. *)
Theorem X10_clearAll_sends_two_requests w :
  searchTerm (hook w) ≠ "" ->
  debouncedSearchTerm (hook w) ≠ "" ->
  let cleared search :=
    {| qSearch := search;
       qStatus := Some ["active"; "scheduled"];
       qSortBy := Some startDate;
       qSortOrder := desc;
       qPage := 1;
       qLimit := itemsPerPage (hook w) |} in
  issued (run w [Call ClearAllFilters; Elapse DEBOUNCE_MS])
  = issued w ++ [cleared (Some (debouncedSearchTerm (hook w))); cleared None].
Proof.
  intros Hst Hds cleared. unfold run. cbn [foldl].
  set (new := clearAllFilters (hook w)).
  change (step w (Call ClearAllFilters)) with (afterRender (hook w) new w).
  set (w1 := afterRender (hook w) new w).
  assert (I1 : issued w1 = issued w ++ [cleared (Some (debouncedSearchTerm (hook w)))]).
  { subst w1 new. rewrite afterRender_issued.
    rewrite fetchDepsChanged_fresh_filters by (destruct (hook w); reflexivity).
    f_equal. subst cleared. destruct (hook w); cbn in *.
    unfold queryParams, orUndefined; cbn.
    rewrite (bool_decide_eq_false_2 _ Hds). reflexivity. }
  pose proof (afterRender_hook (hook w) new w) as (H1 & H2 & _ & H4).
  pose proof (queryParams_afterRender (hook w) new w) as HQ.
  fold w1 in H1, H2, H4, HQ.
  assert (N1 : searchTerm new = "") by (subst new; destruct (hook w); reflexivity).
  assert (N2 : debouncedSearchTerm new = debouncedSearchTerm (hook w))
    by (subst new; destruct (hook w); reflexivity).
  rewrite N1 in H1, H4. rewrite N2 in H2.
  rewrite (bool_decide_eq_false_2 _ Hst) in H4.
  cbn [step]. rewrite H4. cbn [remaining captured].
  change (DEBOUNCE_MS <=? DEBOUNCE_MS) with true. cbv iota.
  rewrite afterRender_issued, I1, <- app_assoc. cbn [app]. do 2 f_equal.
  rewrite fetchDepsChanged_new_term.
  - f_equal.
    assert (Q : forall s, queryParams (setDebouncedSearchTerm "" (setSearchTimeout None s))
                          = {| qSearch := None; qStatus := qStatus (queryParams s);
                               qSortBy := qSortBy (queryParams s);
                               qSortOrder := qSortOrder (queryParams s);
                               qPage := qPage (queryParams s);
                               qLimit := qLimit (queryParams s) |})
      by (intros s; destruct s; reflexivity).
    rewrite Q, HQ. subst new cleared. destruct (hook w); reflexivity.
  - rewrite H2. intros Heq. apply Hds. rewrite Heq.
    destruct (hook w1); reflexivity.
Qed.

(** X11. No action of the user changes what is shown: items, counts,
    page flags and summary stay as they are until a response arrives. *)
Theorem X11_actions_keep_visible_data w a :
  let s' := hook (step w (Call a)) in
  vehicleSchedules s' = vehicleSchedules (hook w) /\
  totalCount s' = totalCount (hook w) /\
  totalPages s' = totalPages (hook w) /\
  hasNextPage s' = hasNextPage (hook w) /\
  hasPreviousPage s' = hasPreviousPage (hook w) /\
  vehicleScheduleSummary s' = vehicleScheduleSummary (hook w).
Proof.
  cbn [step].
  pose proof (afterRender_data (hook w) (act a (hook w)) w) as (D1 & D2 & D3 & D4 & D5 & D6).
  pose proof (act_keeps a (hook w)) as (K1 & K2 & K3 & K4 & K5 & K6 & _).
  cbv zeta. rewrite D1, D2, D3, D4, D5, D6. repeat split; assumption.
Qed.

(** X12. A response that is fulfilled does not clear an error: when one
    of two requests in flight is rejected and the other is fulfilled
    afterwards, the items of the fulfilled one are stored and the error
    message of the rejected one stays set. *)
Theorem X12_fulfilled_response_keeps_error w (i j : nat)
    (q1 q2 : QueryParams) (err : Rejection) (response : Response VS) (summaryResponse : VSS) :
  inflight w !! i = Some q1 ->
  delete i (inflight w) !! j = Some q2 ->
  let w' := run w [Settle i (Rejected err); Settle j (Fulfilled response summaryResponse)] in
  error (hook w') = Some (rejectionMessage "Failed to fetch vehicle schedules" err) /\
  vehicleSchedules (hook w') = rVehicleSchedules response /\
  loading (hook w') = false.
Proof.
  intros Hi Hj. unfold run. cbn [foldl step]. rewrite Hi. cbn [inflight]. rewrite Hj.
  cbn [hook]. destruct (hook w); cbn. repeat split; reflexivity.
Qed.

(** X13. Sorting twice by the column already sorted by brings the sort
    order back; the column stays and the page is 1. *)
Theorem X13_sorting_twice_restores_order s (column : SortColumn) :
  sortBy s = Some column ->
  let s2 := setSorting column (setSorting column s) in
  sortBy s2 = sortBy s /\ sortOrder s2 = sortOrder s /\ currentPage s2 = 1.
Proof.
  intros Hcol.
  assert (Hsame : forall s0 : State VS VSS, sortBy s0 = Some column ->
            setSorting column s0
            = setCurrentPageState 1
                (setSortOrderState (match sortOrder s0 with asc => desc | desc => asc end) s0)).
  { intros s0 H0. unfold setSorting. rewrite (bool_decide_eq_true_2 _ H0). reflexivity. }
  cbv zeta. rewrite (Hsame s Hcol). rewrite Hsame.
  - destruct s as [? ? sb so ? ? ? ? ? ? ? ? ? ? ? ? ?]; cbn.
    destruct so; repeat split; reflexivity.
  - destruct s; exact Hcol.
Qed.

End ScheduleTraces.

Lemma X10_clearAll_sends_two_requests_witness :
  let cleared search :=
    {| VehicleSchedulesData.qSearch := search;
       VehicleSchedulesData.qStatus := Some ["active"; "scheduled"];
       VehicleSchedulesData.qSortBy := Some VehicleSchedulesData.startDate;
       VehicleSchedulesData.qSortOrder := desc;
       VehicleSchedulesData.qPage := 1;
       VehicleSchedulesData.qLimit :=
         VehicleSchedulesData.itemsPerPage (VehicleSchedulesData.hook staleInFlight) |} in
  VehicleSchedulesData.issued
    (VehicleSchedulesData.run staleInFlight
       [VehicleSchedulesData.Call VehicleSchedulesData.ClearAllFilters;
        VehicleSchedulesData.Elapse DEBOUNCE_MS])
  = VehicleSchedulesData.issued staleInFlight
    ++ [cleared (Some (VehicleSchedulesData.debouncedSearchTerm
                         (VehicleSchedulesData.hook staleInFlight)));
        cleared None].
Proof.
  apply (X10_clearAll_sends_two_requests staleInFlight).
  - vm_compute. discriminate.
  - vm_compute. discriminate.
Defined.

Lemma X12_fulfilled_response_keeps_error_witness :
  let w' := VehicleSchedulesData.run twoInFlight
              [VehicleSchedulesData.Settle 0
                 (VehicleSchedulesData.Rejected (ErrorInstance "Network request failed"));
               VehicleSchedulesData.Settle 0
                 (VehicleSchedulesData.Fulfilled vanResponse 1)] in
  VehicleSchedulesData.error (VehicleSchedulesData.hook w')
    = Some (rejectionMessage "Failed to fetch vehicle schedules"
              (ErrorInstance "Network request failed")) /\
  VehicleSchedulesData.vehicleSchedules (VehicleSchedulesData.hook w')
    = VehicleSchedulesData.rVehicleSchedules vanResponse /\
  VehicleSchedulesData.loading (VehicleSchedulesData.hook w') = false.
Proof.
  apply (X12_fulfilled_response_keeps_error twoInFlight 0 0
           (VehicleSchedulesData.queryParams
              (@VehicleSchedulesData.initialState string Z))
           (VehicleSchedulesData.queryParams
              (VehicleSchedulesData.setDebouncedSearchTerm "van"
                 (@VehicleSchedulesData.initialState string Z)))
           (ErrorInstance "Network request failed") vanResponse 1).
  - vm_compute. reflexivity.
  - vm_compute. reflexivity.
Defined.

Lemma X13_sorting_twice_restores_order_witness :
  let s2 := VehicleSchedulesData.setSorting VehicleSchedulesData.startDate
              (VehicleSchedulesData.setSorting VehicleSchedulesData.startDate threePages) in
  VehicleSchedulesData.sortBy s2 = VehicleSchedulesData.sortBy threePages /\
  VehicleSchedulesData.sortOrder s2 = VehicleSchedulesData.sortOrder threePages /\
  VehicleSchedulesData.currentPage s2 = 1.
Proof.
  apply (X13_sorting_twice_restores_order threePages VehicleSchedulesData.startDate).
  reflexivity.
Defined.

(** ** The rows of the chart *)

Lemma reduceItems_from (items : list GanttItem) (vehicle : string) :
  Forall (fun item => inherited (vehicleId item) = false) items ->
  forall acc, exists groups,
    reduceItems acc items = Some groups /\
    default [] (groups !! vehicle)
    = default [] (acc !! vehicle) ++ filter (fun item => vehicleId item = vehicle) items.
Proof.
  induction 1 as [|item items Hitem _ IH]; intros acc; cbn [reduceItems].
  - exists acc. split; [reflexivity|]. rewrite filter_nil, app_nil_r. reflexivity.
  - unfold addItem. rewrite Hitem. cbv zeta.
    destruct (IH (<[vehicleId item := default [] (acc !! vehicleId item) ++ [item]]> acc))
      as (groups & Hgroups & Hrow).
    exists groups. split; [exact Hgroups|]. rewrite Hrow.
    destruct (decide (vehicleId item = vehicle)) as [Heq|Hne].
    + rewrite filter_cons_True by exact Heq. rewrite Heq, lookup_insert_eq. cbn [default].
      unfold Datatypes.id. rewrite <- app_assoc. reflexivity.
    + rewrite filter_cons_False by exact Hne. rewrite lookup_insert_ne by exact Hne.
      reflexivity.
Qed.

(** X14. As long as no vehicle id is a name that plain objects inherit
    from [Object.prototype], the grouping succeeds and the row of a vehicle
    gets exactly the items of that vehicle, in the order of the item list;
    a vehicle without items gets an empty row. *)
Theorem X14_row_holds_the_items_of_its_vehicle (items : list GanttItem) (vehicle : string) :
  Forall (fun item => inherited (vehicleId item) = false) items ->
  inherited vehicle = false ->
  exists groups,
    itemsByVehicle items = Some groups /\
    vehicleItems groups vehicle
    = Some (filter (fun item => vehicleId item = vehicle) items).
Proof.
  intros Hitems Hvehicle. unfold itemsByVehicle.
  destruct (reduceItems_from items vehicle Hitems ∅) as (groups & Hgroups & Hrow).
  exists groups. split; [exact Hgroups|].
  unfold vehicleItems. rewrite Hvehicle, Hrow, lookup_empty. reflexivity.
Qed.

Lemma X14_row_holds_the_items_of_its_vehicle_witness :
  exists groups,
    itemsByVehicle twoVehicles = Some groups /\
    vehicleItems groups "v-1"
    = Some (filter (fun item => vehicleId item = "v-1") twoVehicles).
Proof.
  apply (X14_row_holds_the_items_of_its_vehicle twoVehicles "v-1").
  - repeat constructor.
  - reflexivity.
Defined.

(** An item whose vehicle id is such a name makes the grouping throw, and
    with it the chart. *)
Lemma grouping_throws_on_inherited_name (before after : list GanttItem) (item : GanttItem) :
  inherited (vehicleId item) = true ->
  itemsByVehicle (before ++ item :: after) = None.
Proof.
  intros Hbad. unfold itemsByVehicle. generalize (∅ : gmap string (list GanttItem)).
  induction before as [|b before IH]; intros acc; cbn [app reduceItems].
  - unfold addItem. rewrite Hbad. reflexivity.
  - destruct (addItem acc b) as [acc'|]; [apply IH | reflexivity].
Qed.

Example rows_of_two_vehicles :
  exists groups,
    itemsByVehicle twoVehicles = Some groups /\
    option_map (map id) (vehicleItems groups "v-1") = Some ["a"; "c"] /\
    option_map (map id) (vehicleItems groups "v-2") = Some ["b"] /\
    vehicleItems groups "v-3" = Some [] /\
    vehicleItems groups "toString" = None.
Proof. eexists. split; [reflexivity|]. repeat split; vm_compute; reflexivity. Qed.

Lemma renderItem_top chartStart daysToShow k item b :
  renderItem chartStart daysToShow k item = Ok (Some b) ->
  top b = ITEM_MARGIN + (k mod 2) * (ITEM_HEIGHT + ITEM_MARGIN).
Proof.
  unfold renderItem.
  destruct (calculateItemPosition chartStart daysToShow item) as [[p|]|ex]; cbn [bind];
    [|discriminate|discriminate].
  intros [= <-]. reflexivity.
Qed.

Lemma renderItemsFrom_rows chartStart daysToShow items : forall k bars,
  renderItemsFrom chartStart daysToShow k items = Ok bars ->
  length bars = length items /\
  Forall (fun slot => forall b, slot = Some b ->
            ITEM_MARGIN <= top b /\ top b + ITEM_HEIGHT <= ROW_HEIGHT) bars.
Proof.
  induction items as [|item items IH]; intros k bars; cbn [renderItemsFrom].
  - intros [= <-]. split; [reflexivity | constructor].
  - destruct (renderItem chartStart daysToShow k item) as [slot|ex] eqn:Hitem; cbn [bind];
      [|discriminate].
    destruct (renderItemsFrom chartStart daysToShow (k + 1) items) as [rest|ex] eqn:Hrest;
      cbn [bind]; [|discriminate].
    intros [= <-]. destruct (IH _ _ Hrest) as [Hlen Hall]. split.
    + cbn [length]. rewrite Hlen. reflexivity.
    + constructor; [|exact Hall].
      intros b ->. rewrite (renderItem_top _ _ _ _ _ Hitem).
      pose proof (Z.mod_pos_bound k 2 ltac:(lia)) as Hmod.
      unfold ITEM_MARGIN, ITEM_HEIGHT, ROW_HEIGHT. lia.
Qed.

(** X15. When a row renders, there is one slot per item, in order, and
    every bar lies inside the height of its row: its top is at or below
    the margin and its bottom does not pass [ROW_HEIGHT]. *)
Theorem X15_bars_lie_inside_their_row
    (chartStart : Date) (daysToShow : Z) (items : list GanttItem)
    (bars : list (option Bar)) :
  renderRow chartStart daysToShow items = Ok bars ->
  length bars = length items /\
  Forall (fun slot => forall b, slot = Some b ->
            ITEM_MARGIN <= top b /\ top b + ITEM_HEIGHT <= ROW_HEIGHT) bars.
Proof.
  unfold renderRow. apply renderItemsFrom_rows.
Qed.

Lemma X15_bars_lie_inside_their_row_witness :
  exists bars,
    renderRow june1 7 twoVehicles = Ok bars /\
    length bars = length twoVehicles /\
    Forall (fun slot => forall b, slot = Some b ->
              ITEM_MARGIN <= top b /\ top b + ITEM_HEIGHT <= ROW_HEIGHT) bars.
Proof.
  eexists. split; [vm_compute; reflexivity|].
  apply (X15_bars_lie_inside_their_row june1 7 twoVehicles).
  vm_compute. reflexivity.
Defined.

(** X16. Two items that follow each other in a row never share a slot:
    their bars do not overlap in height, whatever their dates. *)
Theorem X16_neighbours_get_different_slots
    (chartStart : Date) (daysToShow k : Z) (item1 item2 : GanttItem) (b1 b2 : Bar) :
  renderItem chartStart daysToShow k item1 = Ok (Some b1) ->
  renderItem chartStart daysToShow (k + 1) item2 = Ok (Some b2) ->
  top b1 + ITEM_HEIGHT <= top b2 \/ top b2 + ITEM_HEIGHT <= top b1.
Proof.
  intros H1 H2.
  rewrite (renderItem_top _ _ _ _ _ H1), (renderItem_top _ _ _ _ _ H2).
  unfold ITEM_MARGIN, ITEM_HEIGHT. Z.div_mod_to_equations. lia.
Qed.

Lemma X16_neighbours_get_different_slots_witness :
  let b1 := {| key := "a"; barLeft := 0; barWidth := 238; top := 4 |} in
  let b2 := {| key := "c"; barLeft := 240; barWidth := 598; top := 32 |} in
  top b1 + ITEM_HEIGHT <= top b2 \/ top b2 + ITEM_HEIGHT <= top b1.
Proof.
  apply (X16_neighbours_get_different_slots june1 7 0
           (itemOf "v-1" "a" "2024-06-01" "2024-06-02")
           (itemOf "v-1" "c" "2024-06-03" "2024-06-09")).
  - vm_compute. reflexivity.
  - vm_compute. reflexivity.
Defined.

(** X17. Whatever the dates of an item, a position returned for a window
    of at least one day stays on the chart: [left >= 0], [width >= 20] and
    [left + width <= daysToShow * 120].  Items that reach out of the window
    are clipped to it. *)
Theorem X17_every_position_stays_on_the_chart
    (chartStart : Date) (daysToShow : Z) (item : GanttItem) (p : Position) :
  1 <= daysToShow ->
  calculateItemPosition chartStart daysToShow item = Ok (Some p) ->
  0 <= left p /\ 20 <= width p /\ left p + width p <= daysToShow * 120.
Proof.
  intros Hdays Hpos.
  destruct (parseDate (startDate item)) as [s|ex] eqn:Hs;
    [|unfold calculateItemPosition in Hpos; rewrite Hs in Hpos; discriminate].
  destruct (parseDateEnd (endDate item)) as [e|ex] eqn:He;
    [|unfold calculateItemPosition in Hpos; rewrite Hs, He in Hpos; discriminate].
  rewrite (calculateItemPosition_parsed _ _ _ _ _ Hs He) in Hpos. cbv zeta in Hpos.
  set (chartEnd := addDaysToDate chartStart (daysToShow - 1)) in *.
  assert (Hwin : chartStart <= chartEnd)
    by (subst chartEnd; unfold addDaysToDate, MS_PER_DAY; nia).
  destruct (Z.ltb_spec e chartStart) as [Hout1|Hin1]; [discriminate|].
  rewrite Z.gtb_ltb in Hpos.
  destruct (Z.ltb_spec chartEnd s) as [Hout2|Hin2]; [discriminate|].
  cbn [orb] in Hpos.
  set (vs := if s <? chartStart then chartStart else s) in *.
  set (ve := if Z.gtb e chartEnd then chartEnd else e) in *.
  assert (Hvs : chartStart <= vs <= chartEnd)
    by (subst vs; destruct (Z.ltb_spec s chartStart); lia).
  assert (Hve : chartStart <= ve <= chartEnd)
    by (subst ve; rewrite Z.gtb_ltb; destruct (Z.ltb_spec chartEnd e); lia).
  pose proof (calendarDay_mono _ _ (proj1 Hvs)) as A1.
  pose proof (calendarDay_mono _ _ (proj2 Hvs)) as A2.
  pose proof (calendarDay_mono _ _ (proj1 Hve)) as B1.
  pose proof (calendarDay_mono _ _ (proj2 Hve)) as B2.
  assert (HdayEnd : calendarDay chartEnd = calendarDay chartStart + (daysToShow - 1))
    by apply calendarDay_addDays.
  rewrite HdayEnd in A2, B2.
  injection Hpos as <-. cbn [left width].
  unfold getDaysBetweenDates, DAY_WIDTH_PX. lia.
Qed.

Lemma X17_every_position_stays_on_the_chart_witness :
  let p := {| left := 0; width := 238 |} in
  0 <= left p /\ 20 <= width p /\ left p + width p <= 7 * 120.
Proof.
  apply (X17_every_position_stays_on_the_chart june1 7
           (mkItem "2024-05-30" "2024-06-02")).
  - lia.
  - vm_compute. reflexivity.
Defined.

(** X18. An item gets no position exactly when it shares no day with the
    window: it ends on a day before the first day of the window or starts
    on a day after its last day.  An item that shares at least one day with
    the window is always rendered. *)
Theorem X18_null_iff_no_common_day
    (chartStart : Date) (daysToShow : Z) (item : GanttItem) (s e : Date) :
  parseDate (startDate item) = Ok s ->
  parseDateEnd (endDate item) = Ok e ->
  calculateItemPosition chartStart daysToShow item = Ok None <->
  (calendarDay e < calendarDay chartStart \/
   calendarDay chartStart + (daysToShow - 1) < calendarDay s).
Proof.
  intros Hs He. split.
  - intros Hnull.
    rewrite (calculateItemPosition_parsed _ _ _ _ _ Hs He) in Hnull. cbv zeta in Hnull.
    destruct (parseDate_Ok _ _ Hs) as [ds ->].
    destruct (parseDateEnd_Ok _ _ He) as [de ->].
    rewrite calendarDay_start, calendarDay_end.
    pose proof (calendarDay_bounds chartStart) as Hc.
    pose proof (calendarDay_bounds (addDaysToDate chartStart (daysToShow - 1))) as Hce.
    rewrite calendarDay_addDays in Hce.
    rewrite Z.gtb_ltb in Hnull.
    destruct (Z.ltb_spec (de * MS_PER_DAY + (MS_PER_DAY - 1)) chartStart) as [H1|H1].
    + left. unfold MS_PER_DAY in *. nia.
    + destruct (Z.ltb_spec (addDaysToDate chartStart (daysToShow - 1)) (ds * MS_PER_DAY))
        as [H2|H2]; [|discriminate].
      right. unfold MS_PER_DAY in *. nia.
  - apply outside_days_is_null; assumption.
Qed.

Lemma X18_null_iff_no_common_day_witness :
  calculateItemPosition june1 7 (mkItem "2024-06-07" "2024-06-20") = Ok None <->
  (calendarDay (19894 * MS_PER_DAY + (MS_PER_DAY - 1)) < calendarDay june1 \/
   calendarDay june1 + (7 - 1) < calendarDay (19881 * MS_PER_DAY)).
Proof.
  apply (X18_null_iff_no_common_day june1 7 (mkItem "2024-06-07" "2024-06-20")).
  - reflexivity.
  - reflexivity.
Defined.

(** ** Dashboard counts *)

Lemma countStatus_cons (st : string) (v : Dashboard.Vehicle) (vs : list Dashboard.Vehicle) :
  Dashboard.countStatus st (v :: vs)
  = (if decide (Dashboard.vStatus v = st) then 1 else 0) + Dashboard.countStatus st vs.
Proof.
  unfold Dashboard.countStatus. rewrite filter_cons.
  destruct (decide (Dashboard.vStatus v = st)); cbn [length]; lia.
Qed.

Lemma countStatus_three (vs : list Dashboard.Vehicle) :
  Dashboard.countStatus "active" vs + Dashboard.countStatus "maintenance" vs
    + Dashboard.countStatus "idle" vs <= Z.of_nat (length vs) /\
  (Dashboard.countStatus "active" vs + Dashboard.countStatus "maintenance" vs
     + Dashboard.countStatus "idle" vs = Z.of_nat (length vs) <->
   Forall (fun v => Dashboard.vStatus v ∈ ["active"; "maintenance"; "idle"]) vs).
Proof.
  induction vs as [|v vs [IHle IHiff]].
  - split; [reflexivity|]. split; [constructor | reflexivity].
  - rewrite !countStatus_cons, Forall_cons, <- IHiff. cbn [length].
    rewrite !elem_of_cons, elem_of_nil.
    destruct (decide (Dashboard.vStatus v = "active")) as [E1|N1];
      destruct (decide (Dashboard.vStatus v = "maintenance")) as [E2|N2];
      destruct (decide (Dashboard.vStatus v = "idle")) as [E3|N3];
      try (rewrite E1 in *; discriminate); try (rewrite E2 in *; discriminate);
      (split; [lia|]); split; try tauto; try lia.
    all: intros H; split; [tauto | lia].
Qed.

(** X19. Without a backend summary the three status counts of the
    dashboard never add up to more than the total number of vehicles, and
    they add up to the total exactly when every vehicle is active, in
    maintenance or idle. *)
Theorem X19_fallback_counts_agree {Driver : Type} (data : Dashboard.FleetData Driver) :
  Dashboard.summary data = None ->
  let v := Dashboard.dashboard data in
  let counts := Dashboard.shownStatusCounts v in
  Dashboard.active counts + Dashboard.maintenance counts + Dashboard.idle counts
    <= Dashboard.shownTotalVehicles v /\
  (Dashboard.active counts + Dashboard.maintenance counts + Dashboard.idle counts
     = Dashboard.shownTotalVehicles v <->
   Forall (fun x => Dashboard.vStatus x ∈ ["active"; "maintenance"; "idle"])
          (Dashboard.vehicles data)).
Proof.
  intros Hnone. unfold Dashboard.dashboard. rewrite Hnone. cbn.
  apply countStatus_three.
Qed.

Lemma X19_fallback_counts_agree_witness :
  let v := Dashboard.dashboard knownFleet in
  let counts := Dashboard.shownStatusCounts v in
  Dashboard.active counts + Dashboard.maintenance counts + Dashboard.idle counts
    <= Dashboard.shownTotalVehicles v /\
  (Dashboard.active counts + Dashboard.maintenance counts + Dashboard.idle counts
     = Dashboard.shownTotalVehicles v <->
   Forall (fun x => Dashboard.vStatus x ∈ ["active"; "maintenance"; "idle"])
          (Dashboard.vehicles knownFleet)).
Proof.
  apply (X19_fallback_counts_agree knownFleet). reflexivity.
Defined.

(** Both cases on sample fleets: the counts of [knownFleet] add up to its
    total, those of [smallFleet] do not. *)
Example counts_add_up_or_not :
  (let counts := Dashboard.shownStatusCounts (Dashboard.dashboard knownFleet) in
   Dashboard.active counts + Dashboard.maintenance counts + Dashboard.idle counts = 3) /\
  (let counts := Dashboard.shownStatusCounts (Dashboard.dashboard smallFleet) in
   Dashboard.active counts + Dashboard.maintenance counts + Dashboard.idle counts = 2).
Proof. split; vm_compute; reflexivity. Qed.

(** A vehicle with a status of its own is counted in the total and in no
    status card. *)
Example unknown_status_is_in_no_card :
  Dashboard.shownTotalVehicles (Dashboard.dashboard smallFleet) = 3 /\
  Dashboard.shownStatusCounts (Dashboard.dashboard smallFleet)
  = {| Dashboard.active := 1; Dashboard.maintenance := 0; Dashboard.idle := 1 |}.
Proof. split; vm_compute; reflexivity. Qed.
